(** * reparselib: a shallow embedding of [reparselib.cpp]

    The library is a thin client of three services of the host system
    (attribute query, [CreateFile], [DeviceIoControl]) and of the process
    heap.  The embedding keeps the C control flow of every function and
    threads an explicit machine state through it; the host is an abstract
    interface, so that every theorem holds whatever the file system
    driver answers. *)

From Stdlib Require Import NArith ZArith List String Bool Lia.
From Stdlib Require Import Strings.Byte.
Import ListNotations.

Local Open Scope string_scope.
Local Open Scope list_scope.
Local Open Scope N_scope.

(** ** Machine types *)

Definition byte := Byte.byte.
Definition DWORD := N.
Definition WORD := N.
Definition UINT := N.
Definition ULONG := N.
Definition BOOL := Z.
Definition LPCWSTR := string.

Definition FALSE : BOOL := 0%Z.
Definition TRUE : BOOL := 1%Z.

(** A C condition holds when the integer is not zero. *)
Definition truthy (b : BOOL) : bool := negb (Z.eqb b 0).

Inductive HANDLE :=
| INVALID_HANDLE_VALUE
| Handle (n : N).

Definition handle_eqb (a b : HANDLE) : bool :=
  match a, b with
  | INVALID_HANDLE_VALUE, INVALID_HANDLE_VALUE => true
  | Handle x, Handle y => N.eqb x y
  | _, _ => false
  end.

(** Addresses: the null pointer, a location owned by the caller, a local
    variable of the running library function, or a block handed out by
    [GlobalAlloc]. *)
Inductive pointer :=
| NULL
| Caller (a : N)
| Frame (slot : N)
| Global (a : N).

Definition pointer_eqb (p q : pointer) : bool :=
  match p, q with
  | NULL, NULL => true
  | Caller a, Caller b => N.eqb a b
  | Frame a, Frame b => N.eqb a b
  | Global a, Global b => N.eqb a b
  | _, _ => false
  end.

Definition is_null (p : pointer) : bool :=
  match p with NULL => true | _ => false end.

(** A [GUID] is copied by the library as one 16-byte struct and never
    looked into: it is kept as its object representation. *)
Definition GUID := list byte.

(** ** Constants of the platform headers

    The source takes these from the platform SDK through [stdafx.h]; the
    field widths are those of the data model (32-bit tag, 16-bit length,
    16-bit reserved, 128-bit GUID). *)

Definition INVALID_FILE_ATTRIBUTES : DWORD := 0xFFFFFFFF.
Definition FILE_ATTRIBUTE_DIRECTORY : DWORD := 0x10.
Definition FILE_ATTRIBUTE_REPARSE_POINT : DWORD := 0x400.

Definition GENERIC_READ : DWORD := 0x80000000.
Definition GENERIC_WRITE : DWORD := 0x40000000.
Definition FILE_SHARE_READ : DWORD := 0x1.
Definition FILE_SHARE_WRITE : DWORD := 0x2.
Definition OPEN_EXISTING : DWORD := 3.
Definition FILE_FLAG_OPEN_REPARSE_POINT : DWORD := 0x00200000.
Definition FILE_FLAG_BACKUP_SEMANTICS : DWORD := 0x02000000.

Definition FSCTL_SET_REPARSE_POINT : DWORD := 0x000900A4.
Definition FSCTL_GET_REPARSE_POINT : DWORD := 0x000900A8.
Definition FSCTL_DELETE_REPARSE_POINT : DWORD := 0x000900AC.

Definition GPTR : DWORD := 0x40.

Definition MAXIMUM_REPARSE_DATA_BUFFER_SIZE : N := 16 * 1024.

(** Layout of [REPARSE_GUID_DATA_BUFFER]:
    [ReparseTag] (4 bytes), [ReparseDataLength] (2), [Reserved] (2),
    [ReparseGuid] (16), then [GenericReparseBuffer.DataBuffer]. *)
Definition OFFSET_ReparseTag : N := 0.
Definition OFFSET_ReparseDataLength : N := 4.
Definition OFFSET_Reserved : N := 6.
Definition OFFSET_ReparseGuid : N := 8.
Definition OFFSET_DataBuffer : N := 24.
Definition SIZEOF_GUID : N := 16.

(** The header without the GUID ends where the GUID begins; the header
    with the GUID ends where the data begins. *)
Definition REPARSE_DATA_BUFFER_HEADER_SIZE : N := OFFSET_ReparseGuid.
Definition REPARSE_GUID_DATA_BUFFER_HEADER_SIZE : N := OFFSET_DataBuffer.

(** ** Bytes and little-endian fields *)

Definition byte_of_N (n : N) : byte :=
  match Byte.of_N (n mod 256) with
  | Some b => b
  | None => Byte.x00
  end.

Fixpoint le_bytes (width : nat) (v : N) : list byte :=
  match width with
  | O => []
  | S k => byte_of_N v :: le_bytes k (v / 256)
  end.

Fixpoint le_value (bs : list byte) : N :=
  match bs with
  | [] => 0
  | b :: rest => Byte.to_N b + 256 * le_value rest
  end.

Definition zeros (n : N) : list byte := repeat Byte.x00 (N.to_nat n).

Definition read_at (off len : N) (mem : list byte) : list byte :=
  firstn (N.to_nat len) (skipn (N.to_nat off) mem).

(** Writing [data] at offset [off] of the memory that starts at a block.
    The list stands for the memory from the block's first byte on, so a
    write that runs past the block's end lengthens it. *)
Definition write_at (off : N) (data mem : list byte) : list byte :=
  firstn (N.to_nat off) mem ++ data
    ++ skipn (N.to_nat off + List.length data) mem.

Definition get_ReparseTag (rd : list byte) : DWORD :=
  le_value (read_at OFFSET_ReparseTag 4 rd).
Definition get_ReparseDataLength (rd : list byte) : WORD :=
  le_value (read_at OFFSET_ReparseDataLength 2 rd).
Definition get_Reserved (rd : list byte) : WORD :=
  le_value (read_at OFFSET_Reserved 2 rd).
Definition get_ReparseGuid (rd : list byte) : GUID :=
  read_at OFFSET_ReparseGuid SIZEOF_GUID rd.
Definition get_DataBuffer (len : N) (rd : list byte) : list byte :=
  read_at OFFSET_DataBuffer len rd.

Definition set_ReparseTag (v : DWORD) (rd : list byte) : list byte :=
  write_at OFFSET_ReparseTag (le_bytes 4 v) rd.
Definition set_ReparseDataLength (v : N) (rd : list byte) : list byte :=
  write_at OFFSET_ReparseDataLength (le_bytes 2 v) rd.
Definition set_Reserved (v : N) (rd : list byte) : list byte :=
  write_at OFFSET_Reserved (le_bytes 2 v) rd.
Definition set_ReparseGuid (g : GUID) (rd : list byte) : list byte :=
  write_at OFFSET_ReparseGuid (firstn (N.to_nat SIZEOF_GUID) g) rd.

(** The two buffers that [DeleteReparsePoint] hands to the driver: the
    zeroed header with the tag, and the same with the GUID. *)
Definition tag_header (tag : DWORD) : list byte :=
  set_ReparseTag tag (zeros REPARSE_GUID_DATA_BUFFER_HEADER_SIZE).

Definition guid_header (tag : DWORD) (g : GUID) : list byte :=
  set_ReparseGuid g (tag_header tag).

(** The header that [CreateCustomReparsePoint] writes into its zeroed
    block before it copies the data. *)
Definition custom_header (tag : ULONG) (n : UINT) (g : GUID) : list byte :=
  set_ReparseGuid g
    (set_Reserved 0
       (set_ReparseDataLength n
          (set_ReparseTag tag (zeros MAXIMUM_REPARSE_DATA_BUFFER_SIZE)))).

(** ** The host system

    What the library sees of the operating system: the attributes of a
    path ([None] when the path cannot be queried, for one because nothing
    exists under that name), whether an open succeeds, and what the file
    system driver answers to a control request issued on an open file.
    Opens and control requests may change the host. *)

Record Host : Type := mkHost {
  hstate : Type;
  attributes_of : hstate -> LPCWSTR -> option DWORD;
  open_file :
    hstate -> LPCWSTR -> DWORD -> DWORD -> DWORD -> DWORD -> bool * hstate;
  control :
    hstate -> LPCWSTR -> DWORD -> DWORD -> list byte -> N ->
    BOOL * list byte * hstate;
  open_existing_missing :
    forall s name access share flags,
      attributes_of s name = None ->
      fst (open_file s name access share OPEN_EXISTING flags) = false
}.

(** The path exists and its attributes have the reparse-point bit. *)
Definition carries_reparse_attribute (H : Host) (s : hstate H)
    (name : LPCWSTR) : bool :=
  match attributes_of H s name with
  | Some a => negb (N.eqb (N.land a FILE_ATTRIBUTE_REPARSE_POINT) 0)
  | None => false
  end.

(** ** Machine state, events and the monad of library code *)

Inductive object :=
| ObjDWORD (d : DWORD)
| ObjGUID (g : GUID)
| ObjBytes (bs : list byte).

Record Block := mkBlock {
  blk_size : N;
  blk_mem : list byte
}.

Record Request := mkRequest {
  req_handle : HANDLE;
  req_code : DWORD;
  req_in_ptr : pointer;
  req_in : list byte;
  req_in_size : N;
  req_out_ptr : pointer;
  req_out : list byte;
  req_out_size : N;
  req_ret : BOOL
}.

Inductive Event :=
| EvCreateFile (name : LPCWSTR) (access share disposition flags : DWORD)
    (h : HANDLE)
| EvCloseHandle (h : HANDLE)
| EvGlobalAlloc (flags : DWORD) (size : N) (p : pointer)
| EvGlobalFree (p : pointer)
| EvDeviceIoControl (r : Request)
| EvStore (p : pointer) (o : object)
| EvOverrun (p : pointer) (size : N) (upto : N).

(** Tables keyed by a number: live heap blocks and open handles.  An
    entry is added in front; removal drops the first entry of the key. *)
Fixpoint assoc_find {V : Type} (k : N) (l : list (N * V)) : option V :=
  match l with
  | [] => None
  | (k', v) :: rest => if N.eqb k k' then Some v else assoc_find k rest
  end.

Fixpoint assoc_remove {V : Type} (k : N) (l : list (N * V)) : list (N * V) :=
  match l with
  | [] => []
  | (k', v) :: rest =>
      if N.eqb k k' then rest else (k', v) :: assoc_remove k rest
  end.

Fixpoint assoc_update {V : Type} (k : N) (f : V -> V) (l : list (N * V))
    : list (N * V) :=
  match l with
  | [] => []
  | (k', v) :: rest =>
      if N.eqb k k' then (k', f v) :: rest
      else (k', v) :: assoc_update k f rest
  end.

(** A [DWORD] read as a C [int]. *)
Definition BOOL_of_DWORD (d : DWORD) : BOOL :=
  let z := Z.of_N (d mod 2 ^ 32) in
  if (z <? 2 ^ 31)%Z then z else (z - 2 ^ 32)%Z.

Section Library.

Variable H : Host.

Record State := mkState {
  os : hstate H;
  cells : pointer -> option object;
  heap : list (N * Block);
  next_block : N;
  handles : list (N * (LPCWSTR * DWORD));
  next_handle : N
}.

Record Run (A : Type) := mkRun {
  val : A;
  post : State;
  evs : list Event
}.
Arguments mkRun {A} _ _ _.
Arguments val {A} _.
Arguments post {A} _.
Arguments evs {A} _.

Definition M (A : Type) : Type := State -> Run A.

Definition ret {A : Type} (a : A) : M A := fun st => mkRun a st [].

Definition bind {A B : Type} (m : M A) (f : A -> M B) : M B :=
  fun st =>
    match m st with
    | mkRun a st1 e1 =>
        match f a st1 with
        | mkRun b st2 e2 => mkRun b st2 (e1 ++ e2)
        end
    end.

Notation "x <- m ;; k" := (bind m (fun x => k))
  (at level 61, m at next level, right associativity).
Notation "m ;; k" := (bind m (fun _ => k))
  (at level 61, right associativity).

(** *** Services of the host *)

(** [GetFileAttributes] answers [INVALID_FILE_ATTRIBUTES] when it fails. *)
Definition GetFileAttributes (lpFileName : LPCWSTR) : M DWORD :=
  fun st =>
    mkRun (match attributes_of H (os st) lpFileName with
           | Some a => a
           | None => INVALID_FILE_ATTRIBUTES
           end) st [].

Definition CreateFile (lpFileName : LPCWSTR)
    (dwDesiredAccess dwShareMode dwCreationDisposition dwFlags : DWORD)
    : M HANDLE :=
  fun st =>
    let r := open_file H (os st) lpFileName dwDesiredAccess dwShareMode
               dwCreationDisposition dwFlags in
    if fst r then
      let n := next_handle st in
      mkRun (Handle n)
        (mkState (snd r) (cells st) (heap st) (next_block st)
           ((n, (lpFileName, dwDesiredAccess)) :: handles st) (N.succ n))
        [EvCreateFile lpFileName dwDesiredAccess dwShareMode
           dwCreationDisposition dwFlags (Handle n)]
    else
      mkRun INVALID_HANDLE_VALUE
        (mkState (snd r) (cells st) (heap st) (next_block st)
           (handles st) (next_handle st))
        [EvCreateFile lpFileName dwDesiredAccess dwShareMode
           dwCreationDisposition dwFlags INVALID_HANDLE_VALUE].

Definition CloseHandle (h : HANDLE) : M BOOL :=
  fun st =>
    match h with
    | Handle n =>
        match assoc_find n (handles st) with
        | Some _ =>
            mkRun TRUE
              (mkState (os st) (cells st) (heap st) (next_block st)
                 (assoc_remove n (handles st)) (next_handle st))
              [EvCloseHandle h]
        | None => mkRun FALSE st [EvCloseHandle h]
        end
    | INVALID_HANDLE_VALUE => mkRun FALSE st [EvCloseHandle h]
    end.

(** *** The process heap *)

(** [GlobalAlloc]: a fresh block; the library only asks for [GPTR], fixed
    memory initialised to zero.  The library never tests the result, and
    the allocation is taken to succeed. *)
Definition GlobalAlloc (uFlags : DWORD) (dwBytes : N) : M pointer :=
  fun st =>
    let a := next_block st in
    mkRun (Global a)
      (mkState (os st) (cells st)
         ((a, mkBlock dwBytes (zeros dwBytes)) :: heap st) (N.succ a)
         (handles st) (next_handle st))
      [EvGlobalAlloc uFlags dwBytes (Global a)].

Definition GlobalFree (p : pointer) : M pointer :=
  fun st =>
    match p with
    | Global a =>
        mkRun NULL
          (mkState (os st) (cells st) (assoc_remove a (heap st))
             (next_block st) (handles st) (next_handle st))
          [EvGlobalFree p]
    | _ => mkRun p st [EvGlobalFree p]
    end.

Definition find_block (p : pointer) (st : State) : option Block :=
  match p with
  | Global a => assoc_find a (heap st)
  | _ => None
  end.

(** The memory that starts at [p]. *)
Definition block_contents (p : pointer) : M (list byte) :=
  fun st =>
    mkRun (match find_block p st with
           | Some b => blk_mem b
           | None => []
           end) st [].

(** A store of [data] at [p + off].  A store that ends past the end of
    the block is recorded; the bytes land where a flat address space
    puts them. *)
Definition store_block (p : pointer) (off : N) (data : list byte) : M unit :=
  fun st =>
    match p, find_block p st with
    | Global a, Some b =>
        let upto := off + N.of_nat (List.length data) in
        mkRun tt
          (mkState (os st) (cells st)
             (assoc_update a
                (fun b => mkBlock (blk_size b) (write_at off data (blk_mem b)))
                (heap st))
             (next_block st) (handles st) (next_handle st))
          (if blk_size b <? upto then [EvOverrun p (blk_size b) upto] else [])
    | _, _ => mkRun tt st []
    end.

(** *** Typed locations: out-parameters, locals and caller arrays *)

Definition store_cell (p : pointer) (o : object) : M unit :=
  fun st =>
    mkRun tt
      (mkState (os st)
         (fun q => if pointer_eqb q p then Some o else cells st q)
         (heap st) (next_block st) (handles st) (next_handle st))
      [EvStore p o].

Definition load_DWORD (p : pointer) : M DWORD :=
  fun st =>
    mkRun (match cells st p with Some (ObjDWORD d) => d | _ => 0 end) st [].

Definition load_GUID (p : pointer) : M GUID :=
  fun st =>
    mkRun (match cells st p with Some (ObjGUID g) => g | _ => [] end) st [].

Definition bytes_at (p : pointer) (st : State) : list byte :=
  match cells st p with
  | Some (ObjBytes bs) => bs
  | _ => []
  end.

(** [memcpy (dst + off, src, n)] from a caller array into a heap block. *)
Definition memcpy (dst : pointer) (off : N) (src : pointer) (n : N) : M unit :=
  fun st => store_block dst off (firstn (N.to_nat n) (bytes_at src st)) st.

(** *** The control interface

    [DeviceIoControl] on an open handle hands the driver the first
    [nInBufferSize] bytes at [lpInBuffer]; the driver's answer, cut to
    [nOutBufferSize], is written at [lpOutBuffer].  The count of bytes
    returned goes to a local that the library never reads. *)
Definition DeviceIoControl (hDevice : HANDLE) (dwIoControlCode : DWORD)
    (lpInBuffer : pointer) (nInBufferSize : N)
    (lpOutBuffer : pointer) (nOutBufferSize : N) : M BOOL :=
  fun st =>
    match hDevice with
    | Handle n =>
        match assoc_find n (handles st) with
        | Some (name, access) =>
            let input :=
              firstn (N.to_nat nInBufferSize)
                (val (block_contents lpInBuffer st)) in
            let r := control H (os st) name access dwIoControlCode input
                       nOutBufferSize in
            let out := firstn (N.to_nat nOutBufferSize) (snd (fst r)) in
            let st1 :=
              mkState (snd r) (cells st) (heap st) (next_block st)
                (handles st) (next_handle st) in
            let w := store_block lpOutBuffer 0 out st1 in
            mkRun (fst (fst r)) (post w)
              (EvDeviceIoControl
                 (mkRequest hDevice dwIoControlCode lpInBuffer input
                    nInBufferSize lpOutBuffer out nOutBufferSize
                    (fst (fst r)))
               :: evs w)
        | None => mkRun FALSE st []
        end
    | INVALID_HANDLE_VALUE => mkRun FALSE st []
    end.

(** *** reparselib.cpp *)

Definition OpenFileForWrite (sFileName : LPCWSTR) (bBackup : BOOL) : M HANDLE :=
  CreateFile sFileName GENERIC_WRITE
    (N.lor FILE_SHARE_READ FILE_SHARE_WRITE) OPEN_EXISTING
    (if truthy bBackup
     then N.lor FILE_FLAG_OPEN_REPARSE_POINT FILE_FLAG_BACKUP_SEMANTICS
     else FILE_FLAG_OPEN_REPARSE_POINT).

Definition OpenFileForRead (sFileName : LPCWSTR) (bBackup : BOOL) : M HANDLE :=
  CreateFile sFileName GENERIC_READ FILE_SHARE_READ OPEN_EXISTING
    (if truthy bBackup
     then N.lor FILE_FLAG_OPEN_REPARSE_POINT FILE_FLAG_BACKUP_SEMANTICS
     else FILE_FLAG_OPEN_REPARSE_POINT).

Definition ReparsePointExists (sFileName : LPCWSTR) : M BOOL :=
  attrs <- GetFileAttributes sFileName ;;
  ret (BOOL_of_DWORD (N.land attrs FILE_ATTRIBUTE_REPARSE_POINT)).

Definition GetReparseGUID (sFileName : LPCWSTR) (pGuid : pointer) : M BOOL :=
  let bResult := FALSE in
  if is_null pGuid then ret FALSE else
  e <- ReparsePointExists sFileName ;;
  if negb (truthy e) then ret FALSE else
  attrs <- GetFileAttributes sFileName ;;
  hSrc <- OpenFileForRead sFileName
            (BOOL_of_DWORD (N.land attrs FILE_ATTRIBUTE_DIRECTORY)) ;;
  if handle_eqb hSrc INVALID_HANDLE_VALUE then ret bResult else
  rd <- GlobalAlloc GPTR MAXIMUM_REPARSE_DATA_BUFFER_SIZE ;;
  ok <- DeviceIoControl hSrc FSCTL_GET_REPARSE_POINT
          NULL 0 rd MAXIMUM_REPARSE_DATA_BUFFER_SIZE ;;
  bResult <- (if truthy ok then
                m <- block_contents rd ;;
                store_cell pGuid (ObjGUID (get_ReparseGuid m)) ;;
                ret TRUE
              else ret bResult) ;;
  CloseHandle hSrc ;;
  GlobalFree rd ;;
  ret bResult.

Definition GetReparseTag (sFileName : LPCWSTR) (pTag : pointer) : M BOOL :=
  let bResult := FALSE in
  if is_null pTag then ret FALSE else
  e <- ReparsePointExists sFileName ;;
  if negb (truthy e) then ret FALSE else
  attrs <- GetFileAttributes sFileName ;;
  hSrc <- OpenFileForRead sFileName
            (BOOL_of_DWORD (N.land attrs FILE_ATTRIBUTE_DIRECTORY)) ;;
  if handle_eqb hSrc INVALID_HANDLE_VALUE then ret bResult else
  rd <- GlobalAlloc GPTR MAXIMUM_REPARSE_DATA_BUFFER_SIZE ;;
  ok <- DeviceIoControl hSrc FSCTL_GET_REPARSE_POINT
          NULL 0 rd MAXIMUM_REPARSE_DATA_BUFFER_SIZE ;;
  bResult <- (if truthy ok then
                m <- block_contents rd ;;
                store_cell pTag (ObjDWORD (get_ReparseTag m)) ;;
                ret TRUE
              else ret bResult) ;;
  CloseHandle hSrc ;;
  GlobalFree rd ;;
  ret bResult.

(** The locals [gu] and [dwReparseTag] of [DeleteReparsePoint]. *)
Definition gu : pointer := Frame 0.
Definition dwReparseTag : pointer := Frame 1.

Definition DeleteReparsePoint (sFileName : LPCWSTR) : M BOOL :=
  e <- ReparsePointExists sFileName ;;
  stop <- (if negb (truthy e) then ret true
           else g <- GetReparseGUID sFileName gu ;; ret (negb (truthy g))) ;;
  if stop : bool then ret FALSE else
  rd <- GlobalAlloc GPTR REPARSE_GUID_DATA_BUFFER_HEADER_SIZE ;;
  t <- GetReparseTag sFileName dwReparseTag ;;
  if truthy t then
    tag <- load_DWORD dwReparseTag ;;
    store_block rd OFFSET_ReparseTag (le_bytes 4 tag) ;;
    attrs <- GetFileAttributes sFileName ;;
    hDel <- OpenFileForWrite sFileName
              (BOOL_of_DWORD (N.land attrs FILE_ATTRIBUTE_DIRECTORY)) ;;
    if handle_eqb hDel INVALID_HANDLE_VALUE then ret FALSE else
    bResult <- DeviceIoControl hDel FSCTL_DELETE_REPARSE_POINT
                 rd REPARSE_GUID_DATA_BUFFER_HEADER_SIZE NULL 0 ;;
    bResult <- (if negb (truthy bResult) then
                  g <- load_GUID gu ;;
                  store_block rd OFFSET_ReparseGuid
                    (firstn (N.to_nat SIZEOF_GUID) g) ;;
                  DeviceIoControl hDel FSCTL_DELETE_REPARSE_POINT
                    rd REPARSE_GUID_DATA_BUFFER_HEADER_SIZE NULL 0
                else ret bResult) ;;
    GlobalFree rd ;;
    CloseHandle hDel ;;
    ret bResult
  else
    GlobalFree rd ;;
    ret FALSE.

Definition CreateCustomReparsePoint (sFileName : LPCWSTR) (pBuffer : pointer)
    (uBufSize : UINT) (uGuid : GUID) (uReparseTag : ULONG) : M BOOL :=
  let bResult := FALSE in
  if is_null pBuffer || (uBufSize =? 0)
     || (MAXIMUM_REPARSE_DATA_BUFFER_SIZE <? uBufSize)
  then ret bResult else
  attrs <- GetFileAttributes sFileName ;;
  hHandle <- OpenFileForWrite sFileName
               (BOOL_of_DWORD (N.land attrs FILE_ATTRIBUTE_DIRECTORY)) ;;
  if handle_eqb INVALID_HANDLE_VALUE hHandle then ret bResult else
  rd <- GlobalAlloc GPTR MAXIMUM_REPARSE_DATA_BUFFER_SIZE ;;
  store_block rd OFFSET_ReparseTag (le_bytes 4 uReparseTag) ;;
  store_block rd OFFSET_ReparseDataLength (le_bytes 2 uBufSize) ;;
  store_block rd OFFSET_Reserved (le_bytes 2 0) ;;
  store_block rd OFFSET_ReparseGuid (firstn (N.to_nat SIZEOF_GUID) uGuid) ;;
  memcpy rd OFFSET_DataBuffer pBuffer uBufSize ;;
  m <- block_contents rd ;;
  ok <- DeviceIoControl hHandle FSCTL_SET_REPARSE_POINT rd
          (get_ReparseDataLength m + REPARSE_GUID_DATA_BUFFER_HEADER_SIZE)
          NULL 0 ;;
  bResult <- (if truthy ok then ret TRUE else ret bResult) ;;
  CloseHandle hHandle ;;
  GlobalFree rd ;;
  ret bResult.

End Library.

Arguments mkRun {H A} _ _ _.
Arguments val {H A} _.
Arguments post {H A} _.
Arguments evs {H A} _.

(** ** Observations on a trace *)

Fixpoint requests (t : list Event) : list Request :=
  match t with
  | [] => []
  | EvDeviceIoControl r :: rest => r :: requests rest
  | _ :: rest => requests rest
  end.

Definition requests_of (code : DWORD) (t : list Event) : list Request :=
  filter (fun r => N.eqb (req_code r) code) (requests t).

Fixpoint stores (t : list Event) : list (pointer * object) :=
  match t with
  | [] => []
  | EvStore p o :: rest => (p, o) :: stores rest
  | _ :: rest => stores rest
  end.

Fixpoint opens (t : list Event) : list HANDLE :=
  match t with
  | [] => []
  | EvCreateFile _ _ _ _ _ h :: rest => h :: opens rest
  | _ :: rest => opens rest
  end.

Fixpoint allocations (t : list Event) : list (N * pointer) :=
  match t with
  | [] => []
  | EvGlobalAlloc _ size p :: rest => (size, p) :: allocations rest
  | _ :: rest => allocations rest
  end.

Fixpoint overruns (t : list Event) : list (N * N) :=
  match t with
  | [] => []
  | EvOverrun _ size upto :: rest => (size, upto) :: overruns rest
  | _ :: rest => overruns rest
  end.

(** The argument test at the head of [CreateCustomReparsePoint]. *)
Definition create_rejects (pBuffer : pointer) (uBufSize : UINT) : bool :=
  is_null pBuffer || (uBufSize =? 0)
  || (MAXIMUM_REPARSE_DATA_BUFFER_SIZE <? uBufSize).

(** What may make a query fail: a null output pointer, a path without
    the reparse-point attribute, an open that returned the invalid
    handle, a control request that the driver rejected. *)
Definition query_failure (H : Host) (sFileName : LPCWSTR) (p : pointer)
    (st : State H) (r : Run H BOOL) : Prop :=
  is_null p = true
  \/ carries_reparse_attribute H (os H st) sFileName = false
  \/ In INVALID_HANDLE_VALUE (opens (evs r))
  \/ (exists q, In q (requests (evs r)) /\ truthy (req_ret q) = false).

(** The output location [p] of a query that ran from [st] to [r]: left
    alone by a run that returns [FALSE], stored to once by a run that
    returns [TRUE]; and every cause of failure gives [FALSE]. *)
Definition output_discipline (H : Host) (sFileName : LPCWSTR) (p : pointer)
    (st : State H) (r : Run H BOOL) : Prop :=
  ((val r = FALSE /\ stores (evs r) = [] /\ cells H (post r) = cells H st)
   \/ (val r = TRUE
       /\ exists o, stores (evs r) = [(p, o)]
                    /\ cells H (post r) p = Some o))
  /\ (query_failure H sFileName p st r -> val r = FALSE).

(** ** Further observations: opens and protocols *)

(** The arguments of one call of [CreateFile]. *)
Record OpenCall := mkOpenCall {
  oc_name : LPCWSTR;
  oc_access : DWORD;
  oc_share : DWORD;
  oc_disposition : DWORD;
  oc_flags : DWORD
}.

Fixpoint open_calls (t : list Event) : list OpenCall :=
  match t with
  | [] => []
  | EvCreateFile n a s d f _ :: rest => mkOpenCall n a s d f :: open_calls rest
  | _ :: rest => open_calls rest
  end.

(** An open of [sFileName] as the two helpers of the library make it:
    of what exists, on the reparse point itself and not on its target,
    for reading with reads shared or for writing with reads and writes
    shared. *)
Definition reparse_open (sFileName : LPCWSTR) (c : OpenCall) : Prop :=
  oc_name c = sFileName
  /\ oc_disposition c = OPEN_EXISTING
  /\ N.land (oc_flags c) FILE_FLAG_OPEN_REPARSE_POINT
     = FILE_FLAG_OPEN_REPARSE_POINT
  /\ ((oc_access c = GENERIC_READ /\ oc_share c = FILE_SHARE_READ)
      \/ (oc_access c = GENERIC_WRITE
          /\ oc_share c = N.lor FILE_SHARE_READ FILE_SHARE_WRITE)).

(** What a query exchanges with the driver: nothing and [FALSE], or one
    GET request with no input and the whole scratch block for output,
    and [TRUE] exactly when the driver accepted it. *)
Definition query_protocol (H : Host) (r : Run H BOOL) : Prop :=
  (requests (evs r) = [] /\ val r = FALSE)
  \/ (exists q : Request,
        requests (evs r) = [q]
        /\ req_code q = FSCTL_GET_REPARSE_POINT
        /\ req_in_ptr q = NULL /\ req_in q = [] /\ req_in_size q = 0
        /\ req_out_size q = MAXIMUM_REPARSE_DATA_BUFFER_SIZE
        /\ In (MAXIMUM_REPARSE_DATA_BUFFER_SIZE, req_out_ptr q)
              (allocations (evs r))
        /\ val r = (if truthy (req_ret q) then TRUE else FALSE)).
(** An open for reading that lets others read. *)
Definition read_open (c : OpenCall) : Prop :=
  oc_access c = GENERIC_READ /\ oc_share c = FILE_SHARE_READ.

(** The flags the library passes for a path of attributes [a]. *)
Definition flags_for (a : DWORD) : DWORD :=
  if N.eqb (N.land a FILE_ATTRIBUTE_DIRECTORY) 0
  then FILE_FLAG_OPEN_REPARSE_POINT
  else N.lor FILE_FLAG_OPEN_REPARSE_POINT FILE_FLAG_BACKUP_SEMANTICS.
(** What the creation exchanges with the driver: nothing and [FALSE], or
    one SET request with no output, on the one handle it opened for
    writing, and [TRUE] exactly when the driver accepted it. *)
Definition create_protocol (H : Host) (r : Run H BOOL) : Prop :=
  (requests (evs r) = [] /\ val r = FALSE)
  \/ (exists q : Request,
        requests (evs r) = [q]
        /\ req_code q = FSCTL_SET_REPARSE_POINT
        /\ req_out_ptr q = NULL /\ req_out_size q = 0
        /\ In (MAXIMUM_REPARSE_DATA_BUFFER_SIZE, req_in_ptr q)
              (allocations (evs r))
        /\ opens (evs r) = [req_handle q]
        /\ map oc_access (open_calls (evs r)) = [GENERIC_WRITE]
        /\ val r = (if truthy (req_ret q) then TRUE else FALSE)).

(** What [CreateCustomReparsePoint] hands to the driver: the header, the
    data after it, cut to the byte count of the request. *)
Definition custom_packet (tag : ULONG) (n : UINT) (g : GUID)
    (data : list byte) : list byte :=
  firstn (N.to_nat (n + REPARSE_GUID_DATA_BUFFER_HEADER_SIZE))
    (write_at OFFSET_DataBuffer data (custom_header tag n g)).

(** ** Giving up a deletion *)

(** Whether an open for writing returned the invalid handle. *)
Definition is_failed_write_open (e : Event) : bool :=
  match e with
  | EvCreateFile _ access _ _ _ INVALID_HANDLE_VALUE =>
      N.eqb access GENERIC_WRITE
  | _ => false
  end.

Definition write_open_failed (t : list Event) : bool :=
  existsb is_failed_write_open t.

(** Why [DeleteReparsePoint] may give up before its first DELETE request:
    the existence check answers zero, [GetReparseGUID] fails,
    [GetReparseTag] fails (run where the deletion runs it, after the GUID
    query and the allocation of the delete buffer), or the open for
    writing returns the invalid handle. *)
Definition delete_gives_up (H : Host) (sFileName : LPCWSTR) (st : State H)
    (r : Run H BOOL) : Prop :=
  truthy (val (ReparsePointExists H sFileName st)) = false
  \/ val (GetReparseGUID H sFileName gu st) = FALSE
  \/ val (GetReparseTag H sFileName dwReparseTag
            (post (GlobalAlloc H GPTR REPARSE_GUID_DATA_BUFFER_HEADER_SIZE
                     (post (GetReparseGUID H sFileName gu st))))) = FALSE
  \/ write_open_failed (evs r) = true.

(** ** A host to run the library on

    A small file system in the manner of NTFS.  A file keeps its
    attributes, whether it may be opened for reading and for writing, and
    its reparse buffer as GET returns it.  DELETE is accepted when the tag
    of the request is the stored tag and, for a tag that is not
    Microsoft's (bit 31 clear), the GUID of the request is the stored
    GUID.  SET stores the request. *)

Module Mock.

Record File := mkFile {
  f_attrs : DWORD;
  f_read : bool;
  f_write : bool;
  f_reparse : option (list byte)
}.

Definition Disk := list (string * File).

Fixpoint lookup (name : string) (d : Disk) : option File :=
  match d with
  | [] => None
  | (n, f) :: rest => if String.eqb name n then Some f else lookup name rest
  end.

Fixpoint replace (name : string) (f : File) (d : Disk) : Disk :=
  match d with
  | [] => []
  | (n, g) :: rest =>
      if String.eqb name n then (n, f) :: rest
      else (n, g) :: replace name f rest
  end.

Fixpoint bytes_eqb (a b : list byte) : bool :=
  match a, b with
  | [], [] => true
  | x :: a', y :: b' => Byte.eqb x y && bytes_eqb a' b'
  | _, _ => false
  end.

Definition attributes_of (d : Disk) (name : string) : option DWORD :=
  option_map f_attrs (lookup name d).

Definition has_flag (v flag : DWORD) : bool :=
  negb (N.eqb (N.land v flag) 0).

Definition open_file (d : Disk) (name : string)
    (access share disposition flags : DWORD) : bool * Disk :=
  (match lookup name d with
   | Some f =>
       N.eqb disposition OPEN_EXISTING
       && (if N.eqb access GENERIC_READ then f_read f else f_write f)
       && (if has_flag (f_attrs f) FILE_ATTRIBUTE_DIRECTORY
           then has_flag flags FILE_FLAG_BACKUP_SEMANTICS else true)
   | None => false
   end, d).

Definition is_microsoft_tag (tag : DWORD) : bool := N.testbit tag 31.

Definition control (d : Disk) (name : string) (access code : DWORD)
    (input : list byte) (out_size : N) : BOOL * list byte * Disk :=
  match lookup name d with
  | None => (FALSE, [], d)
  | Some f =>
      if N.eqb code FSCTL_GET_REPARSE_POINT then
        match f_reparse f with
        | Some raw => (TRUE, raw, d)
        | None => (FALSE, [], d)
        end
      else if N.eqb code FSCTL_DELETE_REPARSE_POINT then
        match f_reparse f with
        | Some raw =>
            if N.eqb (get_ReparseTag input) (get_ReparseTag raw)
               && (is_microsoft_tag (get_ReparseTag raw)
                   || bytes_eqb (get_ReparseGuid input) (get_ReparseGuid raw))
            then
              (TRUE, [],
               replace name
                 (mkFile (N.ldiff (f_attrs f) FILE_ATTRIBUTE_REPARSE_POINT)
                    (f_read f) (f_write f) None) d)
            else (FALSE, [], d)
        | None => (FALSE, [], d)
        end
      else if N.eqb code FSCTL_SET_REPARSE_POINT then
        (TRUE, [],
         replace name
           (mkFile (N.lor (f_attrs f) FILE_ATTRIBUTE_REPARSE_POINT)
              (f_read f) (f_write f) (Some input)) d)
      else (FALSE, [], d)
  end.

Lemma missing_cannot_open (d : Disk) (name : string)
    (access share flags : DWORD) :
  attributes_of d name = None ->
  fst (open_file d name access share OPEN_EXISTING flags) = false.
Proof.
  unfold attributes_of, open_file. simpl.
  destruct (lookup name d); [discriminate | reflexivity].
Qed.

Definition host : Host :=
  mkHost Disk attributes_of open_file control missing_cannot_open.

(** The machine before the first call: nothing allocated, nothing open,
    and the caller's arrays [arrays] in place. *)
Definition boot (d : Disk) (arrays : pointer -> option object) : State host :=
  mkState host d arrays [] 1 [] 1.

Definition no_arrays : pointer -> option object := fun _ => None.

Definition bytes (l : list N) : list byte := map byte_of_N l.

(** A custom reparse point: tag [0x00000100], a GUID, three bytes of
    data. *)
Definition custom_guid : GUID :=
  bytes [0x11; 0x11; 0x11; 0x11; 0x22; 0x22; 0x33; 0x33;
         0x44; 0x44; 0x55; 0x55; 0x55; 0x55; 0x55; 0x55].

Definition custom_raw : list byte :=
  le_bytes 4 0x100 ++ le_bytes 2 3 ++ le_bytes 2 0 ++ custom_guid
    ++ bytes [0xAA; 0xBB; 0xCC].

(** A symbolic link, a system reparse point: Microsoft's tag
    [0xA000000C], no GUID, the data right after the 8-byte header. *)
Definition symlink_raw : list byte :=
  le_bytes 4 0xA000000C ++ le_bytes 2 20 ++ le_bytes 2 0
    ++ bytes [12; 0; 8; 0; 0; 0; 8; 0; 0; 0; 0; 0;
              0x5C; 0; 0x74; 0; 0x5C; 0; 0x74; 0].

Definition disk : Disk :=
  [ ("C:\link", mkFile 0x410 true true (Some custom_raw));
    ("C:\sym", mkFile 0x420 true true (Some symlink_raw));
    ("C:\locked", mkFile 0x410 true false (Some custom_raw));
    ("C:\plain", mkFile 0x20 true true None) ].

(** The machine on [disk] with no caller arrays. *)
Definition start : State host := boot disk no_arrays.

(** The machine on [disk] with [n] bytes of data at [Caller 1]. *)
Definition start_with_data (n : N) : State host :=
  boot disk
    (fun p =>
       if pointer_eqb p (Caller 1)
       then Some (ObjBytes (repeat (byte_of_N 0xAA) (N.to_nat n)))
       else None).

Definition no_request : Request :=
  mkRequest INVALID_HANDLE_VALUE 0 NULL [] 0 NULL [] 0 FALSE.

(** A run of the creation on [n] bytes of data. *)
Definition create_with (n : N) : Run host BOOL :=
  CreateCustomReparsePoint host "C:\plain" (Caller 1) n custom_guid 0x100
    (start_with_data n).

Definition first_request (t : list Event) : Request :=
  nth 0 (requests t) no_request.

Definition first_delete (t : list Event) : Request :=
  nth 0 (requests_of FSCTL_DELETE_REPARSE_POINT t) no_request.

End Mock.

(** ** Basic facts about bytes, fields and conditions *)

Lemma to_N_byte_of_N (n : N) : Byte.to_N (byte_of_N n) = n mod 256.
Proof.
  unfold byte_of_N.
  destruct (Byte.of_N (n mod 256)) as [b|] eqn:E.
  - now apply Byte.to_of_N.
  - pose proof (Byte.to_of_N_option_map (n mod 256)) as P.
    rewrite E in P. simpl in P.
    assert (n mod 256 < 256) by (apply N.mod_lt; discriminate).
    destruct (N.leb_spec (n mod 256) 255); [discriminate | lia].
Qed.

Lemma le_value_le_bytes (w : nat) (v : N) :
  le_value (le_bytes w v) = v mod 256 ^ N.of_nat w.
Proof.
  revert v. induction w as [|w IH]; intros v.
  - simpl. now rewrite N.mod_1_r.
  - cbn [le_bytes le_value]. rewrite to_N_byte_of_N, IH.
    rewrite Nat2N.inj_succ, N.pow_succ_r'.
    now rewrite N.Div0.mod_mul_r.
Qed.

Lemma le_value_bound (bs : list byte) :
  le_value bs < 256 ^ N.of_nat (List.length bs).
Proof.
  induction bs as [|b bs IH].
  - simpl. lia.
  - cbn [le_value List.length]. rewrite Nat2N.inj_succ, N.pow_succ_r'.
    pose proof (Byte.to_N_bounded b). lia.
Qed.

Lemma length_le_bytes (w : nat) (v : N) : List.length (le_bytes w v) = w.
Proof.
  revert v. induction w as [|w IH]; intros v; simpl; [reflexivity|].
  now rewrite IH.
Qed.

Lemma length_zeros (n : N) : List.length (zeros n) = N.to_nat n.
Proof. unfold zeros. apply repeat_length. Qed.

Lemma length_read_at (off len : N) (mem : list byte) :
  (N.to_nat off + N.to_nat len <= List.length mem)%nat ->
  List.length (read_at off len mem) = N.to_nat len.
Proof.
  intros Hle. unfold read_at. rewrite length_firstn, length_skipn. lia.
Qed.

Lemma length_write_at (off : N) (data mem : list byte) :
  (N.to_nat off + List.length data <= List.length mem)%nat ->
  List.length (write_at off data mem) = List.length mem.
Proof.
  intros Hle. unfold write_at.
  rewrite !length_app, length_firstn, length_skipn. lia.
Qed.

Lemma read_write_same (off len : N) (data mem : list byte) :
  List.length data = N.to_nat len ->
  (N.to_nat off <= List.length mem)%nat ->
  read_at off len (write_at off data mem) = data.
Proof.
  intros Hlen Hoff. unfold read_at, write_at.
  rewrite skipn_app, length_firstn, <- Hlen.
  replace (Nat.min (N.to_nat off) (List.length mem)) with (N.to_nat off) by lia.
  rewrite Nat.sub_diag, skipn_O.
  rewrite (skipn_all2 (firstn _ _)) by (rewrite length_firstn; lia).
  cbn [app]. rewrite firstn_app, Nat.sub_diag, firstn_O, app_nil_r.
  apply firstn_all.
Qed.

Lemma read_write_before (off len off' : N) (data mem : list byte) :
  (N.to_nat off + N.to_nat len <= N.to_nat off')%nat ->
  (N.to_nat off' <= List.length mem)%nat ->
  read_at off len (write_at off' data mem) = read_at off len mem.
Proof.
  intros Hlt Hoff. unfold read_at, write_at.
  rewrite skipn_app, length_firstn.
  replace (N.to_nat off - Nat.min (N.to_nat off') (List.length mem))%nat
    with 0%nat by lia.
  rewrite skipn_O, firstn_app, length_skipn, length_firstn.
  replace (N.to_nat len
           - (Nat.min (N.to_nat off') (List.length mem) - N.to_nat off))%nat
    with 0%nat by lia.
  rewrite firstn_O, app_nil_r.
  rewrite skipn_firstn_comm, firstn_firstn.
  f_equal. lia.
Qed.

Lemma read_write_after (off len off' : N) (data mem : list byte) :
  (N.to_nat off' + List.length data <= N.to_nat off)%nat ->
  (N.to_nat off' <= List.length mem)%nat ->
  read_at off len (write_at off' data mem) = read_at off len mem.
Proof.
  intros Hlt Hoff. unfold read_at, write_at. f_equal.
  rewrite app_assoc, skipn_app, length_app, length_firstn.
  rewrite (skipn_all2 (_ ++ _))
    by (rewrite length_app, length_firstn; lia).
  cbn [app]. rewrite skipn_skipn. f_equal. lia.
Qed.

Lemma get_ReparseTag_bound (rd : list byte) : get_ReparseTag rd < 2 ^ 32.
Proof.
  unfold get_ReparseTag.
  eapply N.lt_le_trans; [apply le_value_bound|].
  change (2 ^ 32) with (256 ^ 4).
  apply N.pow_le_mono_r; [discriminate|].
  unfold read_at. rewrite length_firstn.
  change (N.to_nat 4) with 4%nat. lia.
Qed.

(** Storing a tag that was loaded from a buffer and loading it back. *)
Lemma tag_stored_and_loaded (rd mem : list byte) :
  get_ReparseTag (set_ReparseTag (get_ReparseTag rd) mem) = get_ReparseTag rd.
Proof.
  unfold set_ReparseTag.
  unfold get_ReparseTag at 1.
  rewrite read_write_same by (rewrite ?length_le_bytes; cbn; lia).
  rewrite le_value_le_bytes.
  apply N.mod_small, get_ReparseTag_bound.
Qed.

(** Linear arithmetic over the layout constants. *)
Ltac layout_lia :=
  unfold MAXIMUM_REPARSE_DATA_BUFFER_SIZE,
    REPARSE_GUID_DATA_BUFFER_HEADER_SIZE, REPARSE_DATA_BUFFER_HEADER_SIZE,
    OFFSET_ReparseTag, OFFSET_ReparseDataLength, OFFSET_Reserved,
    OFFSET_ReparseGuid, OFFSET_DataBuffer, SIZEOF_GUID in *;
  lia.

(** The test of one attribute bit, read as a C condition. *)
Lemma truthy_attribute_bit (a flag : DWORD) :
  flag < 2 ^ 31 ->
  truthy (BOOL_of_DWORD (N.land a flag)) = negb (N.eqb (N.land a flag) 0).
Proof.
  intros Hf. unfold truthy, BOOL_of_DWORD.
  pose proof (N.land_le_r a flag) as Hle.
  assert (Hsmall : N.land a flag < 2 ^ 32).
  { eapply N.le_lt_trans; [exact Hle|].
    eapply N.lt_trans; [exact Hf|]. reflexivity. }
  rewrite (N.mod_small _ _ Hsmall).
  assert (Hz : (Z.of_N (N.land a flag) < 2 ^ 31)%Z).
  { change (2 ^ 31)%Z with (Z.of_N (2 ^ 31)). lia. }
  apply Z.ltb_lt in Hz. rewrite Hz.
  destruct (N.eqb_spec (N.land a flag) 0) as [E|E].
  - rewrite E. reflexivity.
  - destruct (Z.eqb_spec (Z.of_N (N.land a flag)) 0); [lia | reflexivity].
Qed.

Lemma assoc_find_head {V : Type} (k : N) (v : V) (l : list (N * V)) :
  assoc_find k ((k, v) :: l) = Some v.
Proof. simpl. now rewrite N.eqb_refl. Qed.

Lemma assoc_remove_head {V : Type} (k : N) (v : V) (l : list (N * V)) :
  assoc_remove k ((k, v) :: l) = l.
Proof. simpl. now rewrite N.eqb_refl. Qed.

Lemma assoc_update_head {V : Type} (k : N) (f : V -> V) (v : V)
    (l : list (N * V)) :
  assoc_update k f ((k, v) :: l) = (k, f v) :: l.
Proof. simpl. now rewrite N.eqb_refl. Qed.

Arguments assoc_find : simpl never.
Arguments assoc_remove : simpl never.
Arguments assoc_update : simpl never.

Ltac head_tables :=
  rewrite ?assoc_find_head, ?assoc_remove_head, ?assoc_update_head.

(** The driver's answer, cut to the size of the output buffer, fits the
    buffer. *)
Lemma answer_fits (n : N) (out : list byte) :
  (n <? 0 + N.of_nat (List.length (firstn (N.to_nat n) out))) = false.
Proof.
  apply N.ltb_ge. rewrite length_firstn. lia.
Qed.

(** Stores of a field that lies inside the block. *)
Lemma le_field_fits (size off : N) (w : nat) (v : N) :
  (off + N.of_nat w <=? size) = true ->
  (size <? off + N.of_nat (List.length (le_bytes w v))) = false.
Proof.
  intros E. apply N.leb_le in E. apply N.ltb_ge.
  now rewrite length_le_bytes.
Qed.

Lemma cut_field_fits (size off n : N) (data : list byte) :
  (off + n <=? size) = true ->
  (size <? off + N.of_nat (List.length (firstn (N.to_nat n) data))) = false.
Proof.
  intros E. apply N.leb_le in E. apply N.ltb_ge.
  rewrite length_firstn. lia.
Qed.

Lemma truthy_TRUE : truthy TRUE = true.
Proof. reflexivity. Qed.

Lemma truthy_FALSE : truthy FALSE = false.
Proof. reflexivity. Qed.

Lemma pointer_eqb_refl (p : pointer) : pointer_eqb p p = true.
Proof. destruct p; simpl; auto using N.eqb_refl. Qed.

Lemma gu_is_not_dwReparseTag : pointer_eqb (Frame 0) (Frame 1) = false.
Proof. reflexivity. Qed.

(** ** Symbolic execution of library code

    [run_step] unfolds the monad and the primitives on a state given by
    its fields; [split_run] decides the next condition the run is stuck
    on: an attribute test, the outcome of an open, the return value of a
    control request. *)

Ltac run_cbv :=
  cbv beta iota zeta delta
      [bind ret GetFileAttributes CreateFile CloseHandle GlobalAlloc
       GlobalFree find_block block_contents store_block store_cell
       load_DWORD load_GUID memcpy DeviceIoControl OpenFileForRead
       OpenFileForWrite ReparsePointExists GetReparseGUID GetReparseTag
       DeleteReparsePoint val post evs os cells heap
       next_block handles next_handle handle_eqb is_null
       blk_size blk_mem negb gu dwReparseTag].

Ltac run_tables :=
  rewrite ?assoc_find_head, ?assoc_remove_head, ?assoc_update_head,
    ?answer_fits, ?truthy_TRUE, ?truthy_FALSE, ?pointer_eqb_refl,
    ?gu_is_not_dwReparseTag.

Ltac run_fits :=
  rewrite ?le_field_fits, ?cut_field_fits by reflexivity.

Ltac run_step := run_cbv; run_tables; run_fits.

Ltac split_run :=
  match goal with
  | |- context [truthy (BOOL_of_DWORD
                          (N.land ?a FILE_ATTRIBUTE_REPARSE_POINT))] =>
      destruct (truthy (BOOL_of_DWORD
                          (N.land a FILE_ATTRIBUTE_REPARSE_POINT))) eqn:?
  | |- context [if fst ?x then _ else _] => destruct (fst x) eqn:?
  | |- context [truthy (fst (fst ?x))] =>
      destruct (truthy (fst (fst x))) eqn:?
  end.

Ltac run_all :=
  repeat ((progress run_cbv) || (progress run_tables) || (progress run_fits)
          || split_run).

(** A statement speaks of its run several times: the run is executed
    once, under a name for the statement. *)
Ltac run_on t :=
  let Q := fresh "Q" in
  pattern t;
  match goal with |- ?P _ => set (Q := P) end;
  run_all;
  subst Q; run_cbv.

(** The same, with a hypothesis about a run kept in step with the goal. *)
Ltac run_cbv_in F :=
  cbv beta iota zeta delta
      [bind ret GetFileAttributes CreateFile CloseHandle GlobalAlloc
       GlobalFree find_block block_contents store_block store_cell
       load_DWORD load_GUID memcpy DeviceIoControl OpenFileForRead
       OpenFileForWrite ReparsePointExists GetReparseGUID GetReparseTag
       DeleteReparsePoint val post evs os cells heap
       next_block handles next_handle handle_eqb is_null
       blk_size blk_mem negb gu dwReparseTag] in F.

Ltac run_tables_in F :=
  rewrite ?assoc_find_head, ?assoc_remove_head, ?assoc_update_head,
    ?answer_fits, ?truthy_TRUE, ?truthy_FALSE, ?pointer_eqb_refl,
    ?gu_is_not_dwReparseTag in F.

Ltac run_all_with F :=
  repeat ((progress run_cbv) || (progress run_tables) || (progress run_fits)
          || (progress run_cbv_in F) || (progress run_tables_in F)
          || split_run).

Ltac run_on_with t F :=
  let Q := fresh "Q" in
  pattern t;
  match goal with |- ?P _ => set (Q := P) end;
  run_all_with F;
  subst Q; run_cbv.

(** A failed attribute query reads as all flags set. *)
Lemma invalid_attributes_reparse :
  truthy (BOOL_of_DWORD
            (N.land INVALID_FILE_ATTRIBUTES FILE_ATTRIBUTE_REPARSE_POINT))
  = true.
Proof. reflexivity. Qed.

Lemma reparse_bit_clear (a : DWORD) :
  N.eqb (N.land a FILE_ATTRIBUTE_REPARSE_POINT) 0 = true ->
  truthy (BOOL_of_DWORD (N.land a FILE_ATTRIBUTE_REPARSE_POINT)) = false.
Proof.
  intros E. rewrite truthy_attribute_bit by reflexivity. now rewrite E.
Qed.

Section HostFacts.

Variable H : Host.

Lemma carried_or_unopenable (o : hstate H) (sFileName : LPCWSTR)
    (access share flags : DWORD) :
  carries_reparse_attribute H o sFileName = false ->
  truthy (BOOL_of_DWORD
            (N.land
               match attributes_of H o sFileName with
               | Some a => a
               | None => INVALID_FILE_ATTRIBUTES
               end FILE_ATTRIBUTE_REPARSE_POINT)) = true ->
  fst (open_file H o sFileName access share OPEN_EXISTING flags) = false.
Proof.
  unfold carries_reparse_attribute. intros Hc Ht.
  destruct (attributes_of H o sFileName) as [a|] eqn:Ea.
  - apply negb_false_iff, reparse_bit_clear in Hc. congruence.
  - now apply open_existing_missing.
Qed.

End HostFacts.

(** A path without the attribute cannot have got past the attribute
    test and an open at once. *)
Ltac absurd_carry Hc :=
  match goal with
  | E : fst (open_file _ _ _ ?a ?s _ ?f) = true |- _ =>
      rewrite (carried_or_unopenable _ _ _ a s f Hc) in E by assumption;
      discriminate E
  end.

Ltac refute_failure :=
  match goal with
  | F : query_failure _ _ _ _ _ |- _ =>
      destruct F as [F | [F | [F | [q [F1 F2]]]]];
      [ discriminate F
      | cbn [os] in F; absurd_carry F
      | cbn [opens evs app In] in F; destruct F as [F | []]; discriminate F
      | cbn [requests evs app In] in F1; destruct F1 as [F1 | []]; subst q;
        cbn [req_ret] in F2; congruence ]
  end.

Ltac settle_output :=
  split;
  [ first
      [ left; repeat split; reflexivity
      | right; split; [reflexivity|]; eexists; split; [reflexivity|];
        rewrite ?pointer_eqb_refl; reflexivity ]
  | first [ reflexivity | intros F; exfalso; refute_failure ] ].

Ltac the_request F :=
  cbn [requests evs app In] in F;
  first [ contradiction F | destruct F as [F | []] ].

Section Queries.

Variable H : Host.

(** C7.  [GetReparseGUID] and [GetReparseTag] return [FALSE] and issue no
    control request when the output pointer is null or when the path
    does not carry the reparse-point attribute (it exists without the
    attribute, or it does not exist). *)
Theorem query_fails_without_request
    (sFileName : LPCWSTR) (p : pointer) (st : State H) :
  is_null p = true
  \/ carries_reparse_attribute H (os H st) sFileName = false ->
  (val (GetReparseGUID H sFileName p st) = FALSE
   /\ requests (evs (GetReparseGUID H sFileName p st)) = [])
  /\ (val (GetReparseTag H sFileName p st) = FALSE
      /\ requests (evs (GetReparseTag H sFileName p st)) = []).
Proof.
  destruct st as [o c hp nb hs nh].
  intros [Hn | Hc].
  - destruct p; try discriminate Hn. repeat split.
  - unfold carries_reparse_attribute in Hc. cbn [os] in Hc.
    destruct (attributes_of H o sFileName) as [a|] eqn:Ea.
    + apply negb_false_iff, reparse_bit_clear in Hc.
      destruct p; run_step; rewrite ?Ea, ?Hc; repeat split.
    + pose proof (open_existing_missing H o sFileName) as Ho.
      destruct p; run_step; rewrite ?Ea, ?invalid_attributes_reparse;
        rewrite ?(Ho _ _ _ Ea); repeat split.
Qed.

(** C10.  A run of [GetReparseGUID] or [GetReparseTag] that fails, for
    any of the four causes, leaves the caller's output location as it
    was; a run that succeeds stores to it exactly once. *)
Theorem output_written_only_on_success
    (sFileName : LPCWSTR) (p : pointer) (st : State H) :
  output_discipline H sFileName p st (GetReparseGUID H sFileName p st)
  /\ output_discipline H sFileName p st (GetReparseTag H sFileName p st).
Proof.
  destruct st as [o c hp nb hs nh].
  unfold output_discipline.
  destruct p; split;
    match goal with
    | |- context [GetReparseGUID ?h ?n ?q ?s] =>
        run_on (GetReparseGUID h n q s)
    | |- context [GetReparseTag ?h ?n ?q ?s] =>
        run_on (GetReparseTag h n q s)
    end;
    settle_output.
Qed.

Lemma length_scratch_after_answer (out : list byte) :
  List.length
    (write_at 0 (firstn (N.to_nat MAXIMUM_REPARSE_DATA_BUFFER_SIZE) out)
       (zeros MAXIMUM_REPARSE_DATA_BUFFER_SIZE))
  = N.to_nat MAXIMUM_REPARSE_DATA_BUFFER_SIZE.
Proof.
  rewrite length_write_at; rewrite length_zeros; [reflexivity|].
  rewrite length_firstn. lia.
Qed.


End Queries.

Lemma firstn_whole {A : Type} (n : nat) (l : list A) :
  List.length l = n -> firstn n l = l.
Proof. intros E. apply firstn_all2. lia. Qed.

Lemma length_header_with_tag (tag : N) :
  List.length
    (write_at OFFSET_ReparseTag (le_bytes 4 tag)
       (zeros REPARSE_GUID_DATA_BUFFER_HEADER_SIZE))
  = N.to_nat REPARSE_GUID_DATA_BUFFER_HEADER_SIZE.
Proof.
  rewrite length_write_at; rewrite ?length_le_bytes, length_zeros;
    [reflexivity | vm_compute; lia].
Qed.

Lemma length_guid_at_offset (out : list byte) :
  List.length
    (get_ReparseGuid
       (write_at 0 (firstn (N.to_nat MAXIMUM_REPARSE_DATA_BUFFER_SIZE) out)
          (zeros MAXIMUM_REPARSE_DATA_BUFFER_SIZE)))
  = N.to_nat SIZEOF_GUID.
Proof.
  unfold get_ReparseGuid. apply length_read_at.
  rewrite length_scratch_after_answer. vm_compute. lia.
Qed.

Lemma length_header_with_guid (tag : N) (g : GUID) :
  List.length
    (write_at OFFSET_ReparseGuid (firstn (N.to_nat SIZEOF_GUID) g)
       (write_at OFFSET_ReparseTag (le_bytes 4 tag)
          (zeros REPARSE_GUID_DATA_BUFFER_HEADER_SIZE)))
  = N.to_nat REPARSE_GUID_DATA_BUFFER_HEADER_SIZE.
Proof.
  rewrite length_write_at; rewrite length_header_with_tag; [reflexivity|].
  rewrite length_firstn.
  change (N.to_nat OFFSET_ReparseGuid) with 8%nat.
  change (N.to_nat SIZEOF_GUID) with 16%nat.
  change (N.to_nat REPARSE_GUID_DATA_BUFFER_HEADER_SIZE) with 24%nat.
  lia.
Qed.

Lemma length_tag_header (tag : DWORD) :
  List.length (tag_header tag) = 24%nat.
Proof. apply length_header_with_tag. Qed.

Lemma length_guid_header (tag : DWORD) (g : GUID) :
  List.length (guid_header tag g) = 24%nat.
Proof. apply length_header_with_guid. Qed.

Lemma tag_header_fields (rd : list byte) :
  get_ReparseTag (tag_header (get_ReparseTag rd)) = get_ReparseTag rd
  /\ get_ReparseDataLength (tag_header (get_ReparseTag rd)) = 0
  /\ get_Reserved (tag_header (get_ReparseTag rd)) = 0.
Proof.
  split; [apply tag_stored_and_loaded|].
  unfold tag_header, set_ReparseTag, get_ReparseDataLength, get_Reserved.
  rewrite !read_write_after
    by (rewrite ?length_le_bytes, ?length_zeros; vm_compute; lia).
  split; reflexivity.
Qed.

Lemma guid_header_fields (rd : list byte) (g : GUID) :
  get_ReparseTag (guid_header (get_ReparseTag rd) g) = get_ReparseTag rd
  /\ get_ReparseDataLength (guid_header (get_ReparseTag rd) g) = 0
  /\ get_Reserved (guid_header (get_ReparseTag rd) g) = 0.
Proof.
  destruct (tag_header_fields rd) as (Ht & Hl & Hr).
  unfold guid_header, set_ReparseGuid.
  unfold get_ReparseTag at 1, get_ReparseDataLength, get_Reserved.
  rewrite !read_write_before
    by (rewrite ?length_tag_header; vm_compute; lia).
  auto.
Qed.

Lemma get_is_not_delete :
  N.eqb FSCTL_GET_REPARSE_POINT FSCTL_DELETE_REPARSE_POINT = false.
Proof. reflexivity. Qed.

Lemma delete_is_delete :
  N.eqb FSCTL_DELETE_REPARSE_POINT FSCTL_DELETE_REPARSE_POINT = true.
Proof. reflexivity. Qed.

(** The DELETE requests of a trace that has been executed. *)
Ltac pick_deletes F :=
  unfold requests_of in F;
  cbn [requests evs app filter req_code] in F;
  rewrite ?get_is_not_delete, ?delete_is_delete in F;
  cbn [filter In] in F.

Ltac fold_headers :=
  cbn [req_in];
  rewrite ?(firstn_whole _ _ (length_header_with_guid _ _));
  rewrite ?(firstn_whole _ _ (length_header_with_tag _));
  repeat
    match goal with
    | |- context [write_at OFFSET_ReparseTag (le_bytes 4 ?t)
                    (zeros REPARSE_GUID_DATA_BUFFER_HEADER_SIZE)] =>
        change (write_at OFFSET_ReparseTag (le_bytes 4 t)
                  (zeros REPARSE_GUID_DATA_BUFFER_HEADER_SIZE))
          with (tag_header t)
    | |- context [write_at OFFSET_ReparseGuid
                    (firstn (N.to_nat SIZEOF_GUID) ?g) (tag_header ?t)] =>
        change (write_at OFFSET_ReparseGuid
                  (firstn (N.to_nat SIZEOF_GUID) g) (tag_header t))
          with (guid_header t g)
    end.

Lemma read_is_not_write : N.eqb GENERIC_READ GENERIC_WRITE = false.
Proof. reflexivity. Qed.

Lemma write_is_write : N.eqb GENERIC_WRITE GENERIC_WRITE = true.
Proof. reflexivity. Qed.

(** Whether the open for writing failed, on a trace that has been
    executed. *)
Ltac decide_write_open :=
  unfold write_open_failed;
  cbn [existsb is_failed_write_open evs app orb];
  rewrite ?read_is_not_write, ?write_is_write;
  cbn [orb].

(** The conditions met on the way, used in the runs a statement names
    beside the main one. *)
Ltac use_conditions :=
  repeat
    (progress
       (run_cbv; run_tables;
        repeat match goal with
               | E : ?l = true |- context [?l] => rewrite E
               | E : ?l = false |- context [?l] => rewrite E
               end)).

(** Picks the disjunct that holds by the reading of both sides. *)
Ltac pick_cause :=
  repeat match goal with
         | |- ?x = ?x => reflexivity
         | |- (?x = ?x) \/ _ => left; reflexivity
         | |- _ \/ _ => right
         end.

Ltac drop_trivial :=
  repeat match goal with
         | E : ?x = ?x |- _ => clear E
         end.

Section Deletion.

Variable H : Host.

(** C4.  [DeleteReparsePoint] makes up to two attempts.  It issues no
    DELETE request only when it gives up beforehand (the existence check
    answers zero, a query fails, or the open for writing returns the
    invalid handle) and then returns [FALSE].  In every other run it has
    opened the file twice for reading and once for writing, and issues
    attempt 1 on the handle of that last open, which is valid, with the
    zeroed header carrying the retrieved tag.  If the driver accepts it,
    it is the only request and its return value is the result; if the
    driver rejects it, exactly one more follows, on the same handle and
    the same buffer with the retrieved GUID stored in it, and its return
    value is the result. *)
Theorem delete_two_attempts (sFileName : LPCWSTR) (st : State H) :
  let r := DeleteReparsePoint H sFileName st in
  let deletes := requests_of FSCTL_DELETE_REPARSE_POINT (evs r) in
  (deletes = [] /\ val r = FALSE /\ delete_gives_up H sFileName st r)
  \/ (exists (g : GUID) (tag : DWORD) (q1 : Request),
        stores (evs r) = [(gu, ObjGUID g); (dwReparseTag, ObjDWORD tag)]
        /\ req_in q1
           = set_ReparseTag tag (zeros REPARSE_GUID_DATA_BUFFER_HEADER_SIZE)
        /\ ((deletes = [q1] /\ truthy (req_ret q1) = true
             /\ val r = req_ret q1)
            \/ (exists q2 : Request,
                  deletes = [q1; q2]
                  /\ truthy (req_ret q1) = false
                  /\ req_in q2 = set_ReparseGuid g (req_in q1)
                  /\ val r = req_ret q2
                  /\ req_handle q2 = req_handle q1
                  /\ req_in_ptr q2 = req_in_ptr q1))
        /\ map oc_access (open_calls (evs r))
           = [GENERIC_READ; GENERIC_READ; GENERIC_WRITE]
        /\ req_handle q1 = last (opens (evs r)) INVALID_HANDLE_VALUE
        /\ req_handle q1 <> INVALID_HANDLE_VALUE).
Proof.
  destruct st as [o c hp nb hs nh].
  cbv zeta. unfold delete_gives_up.
  match goal with
  | |- context [DeleteReparsePoint ?h ?n ?s] =>
      run_on (DeleteReparsePoint h n s)
  end.
  all: drop_trivial.
  all: try (left; split; [reflexivity|]; split; [reflexivity|];
            use_conditions; decide_write_open; pick_cause).
  all: right; eexists _, _, _; split; [reflexivity|]; split; cycle 1.
  all: match goal with
       | |- (_ \/ _) /\ _ =>
           split;
           [ first
               [ left; split; [reflexivity|]; split;
                 [cbn [req_ret]; assumption | reflexivity]
               | right; eexists; split; [reflexivity|]; split;
                 [cbn [req_ret]; assumption|]; split;
                 [|split; [reflexivity|split; reflexivity]];
                 cbn [req_in];
                 rewrite (firstn_whole _ _ (length_header_with_tag _));
                 unfold set_ReparseGuid; apply firstn_whole;
                 apply length_header_with_guid ]
           | cbn [open_calls opens evs app map oc_access last req_handle];
             split; [reflexivity|]; split; [reflexivity | discriminate] ]
       | |- _ => idtac
       end.
  all: cbn [req_in]; unfold set_ReparseTag; apply firstn_whole;
    apply length_header_with_tag.
Qed.

(** C8, as the code has it.  Every DELETE request of [DeleteReparsePoint]
    is issued on a block that was allocated with the size of the header
    that includes the GUID, 24 bytes, and passes that same byte count; in
    the buffer the tag field is the tag retrieved by [GetReparseTag] and
    the length and reserved fields are zero. *)
Theorem delete_buffer_is_guid_header
    (sFileName : LPCWSTR) (st : State H) (q : Request) :
  In q (requests_of FSCTL_DELETE_REPARSE_POINT
          (evs (DeleteReparsePoint H sFileName st))) ->
  req_in_size q = REPARSE_GUID_DATA_BUFFER_HEADER_SIZE
  /\ In (REPARSE_GUID_DATA_BUFFER_HEADER_SIZE, req_in_ptr q)
        (allocations (evs (DeleteReparsePoint H sFileName st)))
  /\ List.length (req_in q) = N.to_nat REPARSE_GUID_DATA_BUFFER_HEADER_SIZE
  /\ In (dwReparseTag, ObjDWORD (get_ReparseTag (req_in q)))
        (stores (evs (DeleteReparsePoint H sFileName st)))
  /\ get_ReparseDataLength (req_in q) = 0
  /\ get_Reserved (req_in q) = 0.
Proof.
  destruct st as [o c hp nb hs nh].
  match goal with
  | |- context [DeleteReparsePoint ?h ?n ?s] =>
      run_on (DeleteReparsePoint h n s)
  end; intros Hq; pick_deletes Hq; try contradiction Hq.
  all: repeat match type of Hq with
              | _ \/ _ => destruct Hq as [Hq | Hq]
              | False => contradiction Hq
              end.
  all: subst q; cbn [req_in_size req_in_ptr]; fold_headers.
  all: rewrite ?length_tag_header, ?length_guid_header.
  all: rewrite ?(proj1 (tag_header_fields _)),
         ?(proj1 (proj2 (tag_header_fields _))),
         ?(proj2 (proj2 (tag_header_fields _))),
         ?(proj1 (guid_header_fields _ _)),
         ?(proj1 (proj2 (guid_header_fields _ _))),
         ?(proj2 (proj2 (guid_header_fields _ _))).
  all: cbn [allocations stores app In].
  all: repeat split; repeat (first [left; reflexivity | right]).
Qed.

(** C6.  [DeleteReparsePoint] returns [FALSE] and issues no DELETE
    request when the path does not carry the reparse-point attribute,
    when [GetReparseGUID] fails, or when [GetReparseTag] fails; for a path
    without the attribute no control request of any kind reaches the
    driver. *)
Theorem delete_fails_without_request (sFileName : LPCWSTR) (st : State H) :
  carries_reparse_attribute H (os H st) sFileName = false
  \/ val (GetReparseGUID H sFileName gu st) = FALSE
  \/ val (GetReparseTag H sFileName dwReparseTag
            (post (GlobalAlloc H GPTR REPARSE_GUID_DATA_BUFFER_HEADER_SIZE
                     (post (GetReparseGUID H sFileName gu st))))) = FALSE ->
  val (DeleteReparsePoint H sFileName st) = FALSE
  /\ requests_of FSCTL_DELETE_REPARSE_POINT
       (evs (DeleteReparsePoint H sFileName st)) = []
  /\ (carries_reparse_attribute H (os H st) sFileName = false ->
      requests (evs (DeleteReparsePoint H sFileName st)) = []).
Proof.
  destruct st as [o c hp nb hs nh].
  intros Hcause.
  match goal with
  | |- context [DeleteReparsePoint ?h ?n ?s] =>
      run_on_with (DeleteReparsePoint h n s) Hcause
  end.
  all: first
         [ split; [reflexivity|]; split; [reflexivity|]; intros Hc;
           first [reflexivity | exfalso; absurd_carry Hc]
         | exfalso; destruct Hcause as [Hc | [Hc | Hc]];
           [absurd_carry Hc | discriminate Hc | discriminate Hc] ].
Qed.

End Deletion.

(** ** Resources *)

Section Resources.

Variable H : Host.

(** X12.  The queries give back what they took, on every path: the heap
    and the table of open handles are after the call as before. *)
Lemma queries_release (sFileName : LPCWSTR) (p : pointer) (st : State H) :
  (heap H (post (GetReparseGUID H sFileName p st)) = heap H st
   /\ handles H (post (GetReparseGUID H sFileName p st)) = handles H st)
  /\ (heap H (post (GetReparseTag H sFileName p st)) = heap H st
      /\ handles H (post (GetReparseTag H sFileName p st)) = handles H st).
Proof.
  destruct st as [o c hp nb hs nh].
  destruct p; split; run_all; split; reflexivity.
Qed.

(** X14.  [DeleteReparsePoint] leaves no handle open on any path.  When
    its open for writing returns the invalid handle it returns [FALSE]
    without a DELETE request and with its 24-byte block, which holds the
    header with the retrieved tag, still allocated on top of the heap it
    found; on every other path the heap is after the call as before. *)
Lemma delete_releases_or_leaks (sFileName : LPCWSTR) (st : State H) :
  let r := DeleteReparsePoint H sFileName st in
  handles H (post r) = handles H st
  /\ (write_open_failed (evs r) = false -> heap H (post r) = heap H st)
  /\ (write_open_failed (evs r) = true ->
      val r = FALSE
      /\ requests_of FSCTL_DELETE_REPARSE_POINT (evs r) = []
      /\ exists tag : DWORD,
           In (dwReparseTag, ObjDWORD tag) (stores (evs r))
           /\ heap H (post r)
              = (N.succ (next_block H st),
                 mkBlock REPARSE_GUID_DATA_BUFFER_HEADER_SIZE
                   (tag_header tag))
                  :: heap H st).
Proof.
  destruct st as [o c hp nb hs nh].
  cbv zeta.
  match goal with
  | |- context [DeleteReparsePoint ?h ?n ?s] =>
      run_on (DeleteReparsePoint h n s)
  end.
  all: split; [reflexivity|].
  all: decide_write_open.
  all: split; intros Hw; try discriminate Hw.
  all: try reflexivity.
  all: split; [reflexivity|]; split; [reflexivity|].
  all: eexists; split;
    [ cbn [stores evs app In]; right; left; reflexivity | reflexivity ].
Qed.

End Resources.

(** ** Creation *)

Lemma length_custom_header (tag : ULONG) (n : UINT) (g : GUID) :
  List.length (custom_header tag n g)
  = N.to_nat MAXIMUM_REPARSE_DATA_BUFFER_SIZE.
Proof.
  unfold custom_header, set_ReparseGuid, set_Reserved,
    set_ReparseDataLength, set_ReparseTag.
  repeat (rewrite length_write_at;
          rewrite ?length_le_bytes, ?length_firstn, ?length_zeros).
  all: layout_lia.
Qed.

Lemma custom_header_length (tag : ULONG) (n : UINT) (g : GUID) :
  n <= MAXIMUM_REPARSE_DATA_BUFFER_SIZE ->
  le_value (read_at OFFSET_ReparseDataLength 2 (custom_header tag n g)) = n.
Proof.
  intros Hn. unfold custom_header, set_ReparseGuid, set_Reserved.
  assert (L1 : List.length
                 (set_ReparseDataLength n
                    (set_ReparseTag tag
                       (zeros MAXIMUM_REPARSE_DATA_BUFFER_SIZE)))
               = N.to_nat MAXIMUM_REPARSE_DATA_BUFFER_SIZE).
  { unfold set_ReparseDataLength, set_ReparseTag.
    repeat (rewrite length_write_at;
            rewrite ?length_le_bytes, ?length_zeros).
    all: layout_lia. }
  rewrite !read_write_before
    by (rewrite ?length_write_at; rewrite ?L1, ?length_le_bytes;
        layout_lia).
  unfold set_ReparseDataLength.
  rewrite read_write_same
    by (unfold set_ReparseTag;
        rewrite ?length_write_at;
        rewrite ?length_le_bytes, ?length_zeros; layout_lia).
  rewrite le_value_le_bytes.
  apply N.mod_small.
  eapply N.le_lt_trans; [exact Hn | reflexivity].
Qed.

Ltac fold_custom_header :=
  match goal with
  | |- context [write_at OFFSET_ReparseGuid (firstn (N.to_nat SIZEOF_GUID) ?g)
                  (write_at OFFSET_Reserved (le_bytes 2 0)
                     (write_at OFFSET_ReparseDataLength (le_bytes 2 ?n)
                        (write_at OFFSET_ReparseTag (le_bytes 4 ?t)
                           (zeros MAXIMUM_REPARSE_DATA_BUFFER_SIZE))))] =>
      change (write_at OFFSET_ReparseGuid (firstn (N.to_nat SIZEOF_GUID) g)
                (write_at OFFSET_Reserved (le_bytes 2 0)
                   (write_at OFFSET_ReparseDataLength (le_bytes 2 n)
                      (write_at OFFSET_ReparseTag (le_bytes 4 t)
                         (zeros MAXIMUM_REPARSE_DATA_BUFFER_SIZE)))))
        with (custom_header t n g)
  end.

(** Whether the copy of the data ran past the end of the block. *)
Ltac split_overrun :=
  match goal with
  | |- context [if ?c then [EvOverrun _ _ _] else []] => destruct c eqn:?
  end.

Section Creation.

Variable H : Host.

Ltac enter_create Hrej :=
  unfold CreateCustomReparsePoint;
  match goal with
  | |- context [is_null ?p || (?n =? 0)
                || (MAXIMUM_REPARSE_DATA_BUFFER_SIZE <? ?n)] =>
      change (is_null p || (n =? 0)
              || (MAXIMUM_REPARSE_DATA_BUFFER_SIZE <? n))
        with (create_rejects p n)
  end;
  rewrite Hrej.

(** The code's own guard: the call is turned down, before anything is
    opened, exactly when the pointer is null, the size is zero, or the
    size exceeds [MAXIMUM_REPARSE_DATA_BUFFER_SIZE]. *)
Lemma create_guard (sFileName : LPCWSTR) (pBuffer : pointer) (uBufSize : UINT)
    (uGuid : GUID) (uReparseTag : ULONG) (st : State H) :
  let r := CreateCustomReparsePoint H sFileName pBuffer uBufSize uGuid
             uReparseTag st in
  (create_rejects pBuffer uBufSize = true -> r = mkRun FALSE st [])
  /\ (create_rejects pBuffer uBufSize = false -> opens (evs r) <> []).
Proof.
  destruct st as [o c hp nb hs nh].
  cbv zeta. split; intros Hrej; enter_create Hrej.
  - reflexivity.
  - run_all; discriminate.
Qed.

(** X13.  [CreateCustomReparsePoint] gives back the block and the handle
    on every path. *)
Lemma create_releases (sFileName : LPCWSTR) (pBuffer : pointer)
    (uBufSize : UINT) (uGuid : GUID) (uReparseTag : ULONG) (st : State H) :
  let r := CreateCustomReparsePoint H sFileName pBuffer uBufSize uGuid
             uReparseTag st in
  heap H (post r) = heap H st /\ handles H (post r) = handles H st.
Proof.
  destruct st as [o c hp nb hs nh].
  cbv zeta.
  destruct (create_rejects pBuffer uBufSize) eqn:Hrej; enter_create Hrej.
  - split; reflexivity.
  - run_all; split; reflexivity.
Qed.

(** The byte count of the SET request is the size of the header with
    the GUID plus the size of the data, for every size that the guard
    lets through. *)
Lemma set_request_size (sFileName : LPCWSTR) (pBuffer : pointer)
    (uBufSize : UINT) (uGuid : GUID) (uReparseTag : ULONG) (st : State H)
    (q : Request) :
  create_rejects pBuffer uBufSize = false ->
  In q (requests (evs (CreateCustomReparsePoint H sFileName pBuffer uBufSize
                         uGuid uReparseTag st))) ->
  req_code q = FSCTL_SET_REPARSE_POINT
  /\ req_in_size q = uBufSize + REPARSE_GUID_DATA_BUFFER_HEADER_SIZE
  /\ requests (evs (CreateCustomReparsePoint H sFileName pBuffer uBufSize
                      uGuid uReparseTag st)) = [q].
Proof.
  destruct st as [o c hp nb hs nh].
  intros Hrej. 
  assert (Hn : uBufSize <= MAXIMUM_REPARSE_DATA_BUFFER_SIZE).
  { unfold create_rejects in Hrej.
    apply orb_false_iff in Hrej. destruct Hrej as [_ Hrej].
    now apply N.ltb_ge in Hrej. }
  enter_create Hrej.
  run_all; try split_overrun; intros Hq; the_request Hq; subst q.
  all: cbn [req_code req_in_size]; repeat split.
  all: f_equal; fold_custom_header.
  all: unfold get_ReparseDataLength;
    rewrite read_write_before
      by (rewrite ?length_custom_header; layout_lia).
  all: apply custom_header_length; exact Hn.
Qed.

(** Within the bound of the data model, size of the data at most the
    maximum less the header, the request stays within the maximum. *)
Lemma set_request_within_limit (sFileName : LPCWSTR) (pBuffer : pointer)
    (uBufSize : UINT) (uGuid : GUID) (uReparseTag : ULONG) (st : State H)
    (q : Request) :
  create_rejects pBuffer uBufSize = false ->
  uBufSize
  <= MAXIMUM_REPARSE_DATA_BUFFER_SIZE - REPARSE_GUID_DATA_BUFFER_HEADER_SIZE ->
  In q (requests (evs (CreateCustomReparsePoint H sFileName pBuffer uBufSize
                         uGuid uReparseTag st))) ->
  req_in_size q <= MAXIMUM_REPARSE_DATA_BUFFER_SIZE.
Proof.
  intros Hrej Hn Hq.
  destruct (set_request_size sFileName pBuffer uBufSize uGuid uReparseTag st
              q Hrej Hq) as (_ & Hsize & _).
  rewrite Hsize. layout_lia.
Qed.

End Creation.

(** ** The existence check *)

Section Existence.

Variable H : Host.

(** On a path whose attributes can be read, [ReparsePointExists] is the
    test of the reparse-point bit; on a path whose attributes cannot be
    read it returns the bit of [INVALID_FILE_ATTRIBUTES], which is set.
    It opens nothing and changes nothing. *)
Lemma ReparsePointExists_on_attributes (sFileName : LPCWSTR) (st : State H) :
  let r := ReparsePointExists H sFileName st in
  post r = st /\ evs r = []
  /\ match attributes_of H (os H st) sFileName with
     | Some a =>
         truthy (val r) = carries_reparse_attribute H (os H st) sFileName
     | None =>
         val r = 0x400%Z
         /\ carries_reparse_attribute H (os H st) sFileName = false
     end.
Proof.
  cbv zeta. split; [reflexivity|]. split; [reflexivity|].
  unfold carries_reparse_attribute, ReparsePointExists, GetFileAttributes.
  cbn [bind ret val].
  destruct (attributes_of H (os H st) sFileName) as [a|].
  - cbn [val]. now apply truthy_attribute_bit.
  - split; reflexivity.
Qed.

End Existence.

(** ** Runs on the mock host *)

(** C1, at a path that does not exist: the path does not carry the
    attribute, and [ReparsePointExists] returns [0x400], which a caller
    reads as true. *)
Theorem ReparsePointExists_missing_path :
  Mock.lookup "C:\missing" Mock.disk = None
  /\ carries_reparse_attribute Mock.host Mock.disk "C:\missing" = false
  /\ val (ReparsePointExists Mock.host "C:\missing" Mock.start) = 0x400%Z
  /\ truthy (val (ReparsePointExists Mock.host "C:\missing" Mock.start)) = true.
Proof. vm_compute. repeat split. Qed.

(** C2, at a reparse point that cannot be opened for writing: both
    queries succeed, the open for writing returns the invalid handle, and
    [DeleteReparsePoint] returns [FALSE] with its 24-byte block still
    allocated. *)
Theorem DeleteReparsePoint_leaks_block :
  heap Mock.host Mock.start = []
  /\ val (DeleteReparsePoint Mock.host "C:\locked" Mock.start) = FALSE
  /\ opens (evs (DeleteReparsePoint Mock.host "C:\locked" Mock.start))
     = [Handle 1; Handle 2; INVALID_HANDLE_VALUE]
  /\ allocations (evs (DeleteReparsePoint Mock.host "C:\locked" Mock.start))
     = [(16384, Global 1); (24, Global 2); (16384, Global 3)]
  /\ heap Mock.host
       (post (DeleteReparsePoint Mock.host "C:\locked" Mock.start))
     = [(2, mkBlock 24 (tag_header 0x100))]
  /\ handles Mock.host
       (post (DeleteReparsePoint Mock.host "C:\locked" Mock.start))
     = [].
Proof. vm_compute. repeat split. Qed.

(** C3, at a payload one byte longer than the buffer can hold after the
    header: the guard lets the call through, a handle is opened, the copy
    of the data runs one byte past the end of the 16384-byte block, and
    the call returns [TRUE]. *)
Theorem CreateCustomReparsePoint_oversized_payload :
  MAXIMUM_REPARSE_DATA_BUFFER_SIZE - REPARSE_GUID_DATA_BUFFER_HEADER_SIZE
  < 16361
  /\ create_rejects (Caller 1) 16361 = false
  /\ opens (evs (Mock.create_with 16361)) = [Handle 1]
  /\ overruns (evs (Mock.create_with 16361)) = [(16384, 16385)]
  /\ val (Mock.create_with 16361) = TRUE.
Proof. vm_compute. repeat split. Qed.

(** C5, at the largest payload that the guard lets through: the SET
    request is issued with 16408 bytes, more than the maximum of 16384. *)
Theorem CreateCustomReparsePoint_request_too_long :
  create_rejects (Caller 1) MAXIMUM_REPARSE_DATA_BUFFER_SIZE = false
  /\ map req_code (requests (evs (Mock.create_with 16384)))
     = [FSCTL_SET_REPARSE_POINT]
  /\ map req_in_size (requests (evs (Mock.create_with 16384))) = [16408]
  /\ MAXIMUM_REPARSE_DATA_BUFFER_SIZE < 16408.
Proof. vm_compute. repeat split. Qed.

(** C8 as stated fails: on a custom reparse point the delete buffer is
    not allocated with the size of the header without the GUID, 8 bytes,
    and the DELETE requests do not pass that byte count. *)
Lemma delete_buffer_not_bare_header :
  ~ (forall q : Request,
       In q (requests_of FSCTL_DELETE_REPARSE_POINT
               (evs (DeleteReparsePoint Mock.host "C:\link" Mock.start))) ->
       req_in_size q = REPARSE_DATA_BUFFER_HEADER_SIZE
       /\ In (REPARSE_DATA_BUFFER_HEADER_SIZE, req_in_ptr q)
             (allocations
                (evs (DeleteReparsePoint Mock.host "C:\link" Mock.start)))).
Proof.
  intros Hall.
  destruct (Hall (Mock.first_delete
                    (evs (DeleteReparsePoint Mock.host "C:\link"
                            Mock.start))))
    as [Hsize _].
  - vm_compute. left. reflexivity.
  - vm_compute in Hsize. discriminate Hsize.
Qed.

(** The fallback at work: the custom reparse point is deleted by the
    second request, after the driver rejected the first. *)
Example delete_custom_point_by_fallback :
  map req_ret
    (requests_of FSCTL_DELETE_REPARSE_POINT
       (evs (DeleteReparsePoint Mock.host "C:\link" Mock.start)))
  = [FALSE; TRUE]
  /\ val (DeleteReparsePoint Mock.host "C:\link" Mock.start) = TRUE
  /\ carries_reparse_attribute Mock.host
       (os Mock.host
          (post (DeleteReparsePoint Mock.host "C:\link" Mock.start)))
       "C:\link" = false.
Proof. vm_compute. repeat split. Qed.

(** On the symbolic link the value stored as GUID is the first 16 bytes
    of the link data. *)
Example guid_of_system_point_is_data :
  Mock.is_microsoft_tag (get_ReparseTag Mock.symlink_raw) = true
  /\ val (GetReparseGUID Mock.host "C:\sym" (Caller 1) Mock.start) = TRUE
  /\ stores (evs (GetReparseGUID Mock.host "C:\sym" (Caller 1) Mock.start))
     = [(Caller 1,
         ObjGUID (Mock.bytes [12; 0; 8; 0; 0; 0; 8; 0; 0; 0; 0; 0;
                              0x5C; 0; 0x74; 0]))].
Proof. vm_compute. repeat split. Qed.

(** *** Instances of the conditional theorems *)

Lemma query_fails_without_request_witness :
  (is_null (Caller 1) = true
   \/ carries_reparse_attribute Mock.host (os Mock.host Mock.start)
        "C:\plain" = false)
  /\ ((val (GetReparseGUID Mock.host "C:\plain" (Caller 1) Mock.start)
       = FALSE
       /\ requests
            (evs (GetReparseGUID Mock.host "C:\plain" (Caller 1) Mock.start))
          = [])
      /\ (val (GetReparseTag Mock.host "C:\plain" (Caller 1) Mock.start)
          = FALSE
          /\ requests
               (evs (GetReparseTag Mock.host "C:\plain" (Caller 1)
                       Mock.start))
             = [])).
Proof.
  split.
  - right. reflexivity.
  - apply (query_fails_without_request Mock.host "C:\plain" (Caller 1)
             Mock.start).
    right. reflexivity.
Defined.


Lemma delete_buffer_is_guid_header_witness :
  In (Mock.first_delete
        (evs (DeleteReparsePoint Mock.host "C:\link" Mock.start)))
     (requests_of FSCTL_DELETE_REPARSE_POINT
        (evs (DeleteReparsePoint Mock.host "C:\link" Mock.start)))
  /\ req_in_size
       (Mock.first_delete
          (evs (DeleteReparsePoint Mock.host "C:\link" Mock.start)))
     = REPARSE_GUID_DATA_BUFFER_HEADER_SIZE
  /\ get_ReparseTag
       (req_in
          (Mock.first_delete
             (evs (DeleteReparsePoint Mock.host "C:\link" Mock.start))))
     = 0x100.
Proof.
  assert (Hin :
            In (Mock.first_delete
                  (evs (DeleteReparsePoint Mock.host "C:\link" Mock.start)))
               (requests_of FSCTL_DELETE_REPARSE_POINT
                  (evs (DeleteReparsePoint Mock.host "C:\link" Mock.start)))).
  { vm_compute. left. reflexivity. }
  destruct (delete_buffer_is_guid_header Mock.host "C:\link" Mock.start
              (Mock.first_delete
                 (evs (DeleteReparsePoint Mock.host "C:\link" Mock.start)))
              Hin)
    as (Hsize & _).
  refine (conj Hin (conj Hsize _)). vm_compute. reflexivity.
Defined.

Lemma delete_fails_without_request_witness :
  carries_reparse_attribute Mock.host (os Mock.host Mock.start) "C:\plain"
  = false
  /\ val (DeleteReparsePoint Mock.host "C:\plain" Mock.start) = FALSE
  /\ requests_of FSCTL_DELETE_REPARSE_POINT
       (evs (DeleteReparsePoint Mock.host "C:\plain" Mock.start)) = []
  /\ requests (evs (DeleteReparsePoint Mock.host "C:\plain" Mock.start))
     = [].
Proof.
  assert (Hc : carries_reparse_attribute Mock.host (os Mock.host Mock.start)
                 "C:\plain" = false) by reflexivity.
  destruct (delete_fails_without_request Mock.host "C:\plain" Mock.start
              (or_introl Hc)) as (Hval & Hdel & Hreq).
  exact (conj Hc (conj Hval (conj Hdel (Hreq Hc)))).
Defined.

(** ** Further properties of the library *)

Ltac enter_creation Hrej :=
  unfold CreateCustomReparsePoint;
  match goal with
  | |- context [is_null ?p || (?n =? 0)
                || (MAXIMUM_REPARSE_DATA_BUFFER_SIZE <? ?n)] =>
      change (is_null p || (n =? 0)
              || (MAXIMUM_REPARSE_DATA_BUFFER_SIZE <? n))
        with (create_rejects p n)
  end;
  rewrite Hrej.

Ltac prove_open :=
  unfold reparse_open;
  cbn [oc_name oc_access oc_share oc_disposition oc_flags];
  split; [reflexivity|]; split; [reflexivity|]; split;
  [ match goal with
    | |- context [if ?c then _ else _] => destruct c
    end; reflexivity
  | first [left; split; reflexivity | right; split; reflexivity] ].

Ltac prove_opens tac :=
  cbn [open_calls evs app];
  repeat (apply Forall_cons; [tac|]); apply Forall_nil.

Section Protocols.
Variable H : Host.

Lemma land_one_bit (a : N) (n : N) :
  N.land a (2 ^ n) = 0 \/ N.land a (2 ^ n) = 2 ^ n.
Proof.
  destruct (N.testbit a n) eqn:E; [right | left];
    apply N.bits_inj; intros i;
    rewrite N.land_spec, N.pow2_bits_eqb;
    destruct (N.eqb_spec n i); subst;
    rewrite ?E, ?andb_false_r, ?andb_true_r, ?N.bits_0; reflexivity.
Qed.

(** X1.  [ReparsePointExists] returns 0 or [0x400], never [TRUE]; it
    leaves the machine as it was and opens nothing. *)
Theorem ReparsePointExists_value (sFileName : LPCWSTR) (st : State H) :
  (val (ReparsePointExists H sFileName st) = 0%Z
   \/ val (ReparsePointExists H sFileName st) = 0x400%Z)
  /\ val (ReparsePointExists H sFileName st) <> TRUE
  /\ post (ReparsePointExists H sFileName st) = st
  /\ evs (ReparsePointExists H sFileName st) = [].
Proof.
  assert (V : val (ReparsePointExists H sFileName st) = 0%Z
              \/ val (ReparsePointExists H sFileName st) = 0x400%Z).
  { unfold ReparsePointExists, GetFileAttributes. cbn [bind ret val].
    match goal with
    | |- context [N.land ?a FILE_ATTRIBUTE_REPARSE_POINT] =>
        destruct (land_one_bit a 10) as [E | E];
        change (2 ^ 10) with FILE_ATTRIBUTE_REPARSE_POINT in E; rewrite E
    end; [left | right]; reflexivity. }
  split; [exact V|]. split; [|split; reflexivity].
  destruct V as [V | V]; rewrite V; discriminate.
Qed.

(** X2.  On a path whose attributes can be read, the result of
    [ReparsePointExists] is true in C exactly when the attributes have
    the reparse-point bit. *)
Theorem ReparsePointExists_on_existing_path
    (sFileName : LPCWSTR) (st : State H) (a : DWORD) :
  attributes_of H (os H st) sFileName = Some a ->
  truthy (val (ReparsePointExists H sFileName st))
  = negb (N.eqb (N.land a FILE_ATTRIBUTE_REPARSE_POINT) 0)
  /\ truthy (val (ReparsePointExists H sFileName st))
     = carries_reparse_attribute H (os H st) sFileName.
Proof.
  intros Ea. unfold carries_reparse_attribute, ReparsePointExists,
    GetFileAttributes. cbn [bind ret val]. rewrite Ea.
  split; now apply truthy_attribute_bit.
Qed.


(** X3.  Once the driver has accepted the GET request, [GetReparseTag]
    returns [TRUE] and stores, once, the 32-bit value at offset 0 of the
    scratch buffer; the value is below 2^32. *)
Theorem GetReparseTag_reads_tag_field
    (sFileName : LPCWSTR) (p : pointer) (st : State H) (q : Request) :
  is_null p = false ->
  In q (requests (evs (GetReparseTag H sFileName p st))) ->
  truthy (req_ret q) = true ->
  let rd := write_at 0 (req_out q) (zeros MAXIMUM_REPARSE_DATA_BUFFER_SIZE) in
  val (GetReparseTag H sFileName p st) = TRUE
  /\ stores (evs (GetReparseTag H sFileName p st))
     = [(p, ObjDWORD (get_ReparseTag rd))]
  /\ cells H (post (GetReparseTag H sFileName p st)) p
     = Some (ObjDWORD (get_ReparseTag rd))
  /\ get_ReparseTag rd < 2 ^ 32.
Proof.
  destruct st as [o c hp nb hs nh].
  intros Hp Hq Hret.
  destruct p; try discriminate Hp; clear Hp.
  all: revert Hq; run_all; intros Hq; the_request Hq; subst q;
    cbn [req_ret] in Hret; try congruence.
  all: cbv zeta; cbn [req_out]; rewrite ?pointer_eqb_refl.
  all: split; [reflexivity|]; split; [reflexivity|]; split; [reflexivity|].
  all: apply get_ReparseTag_bound.
Qed.

(** X4.  Each query issues no control request and returns [FALSE], or
    issues exactly one: a GET with no input, with the 16384-byte block it
    allocated as output; it returns [TRUE] exactly when the driver
    accepted that request. *)
Theorem queries_follow_protocol
    (sFileName : LPCWSTR) (p : pointer) (st : State H) :
  query_protocol H (GetReparseGUID H sFileName p st)
  /\ query_protocol H (GetReparseTag H sFileName p st).
Proof.
  destruct st as [o c hp nb hs nh].
  unfold query_protocol.
  destruct p; split;
    match goal with
    | |- context [GetReparseGUID ?h ?n ?q ?s] =>
        run_on (GetReparseGUID h n q s)
    | |- context [GetReparseTag ?h ?n ?q ?s] =>
        run_on (GetReparseTag h n q s)
    end.
  all: first
         [ left; split; reflexivity
         | right; eexists; split; [reflexivity|];
           cbn [req_code req_in_ptr req_in req_in_size req_out_size
                req_out_ptr req_ret allocations app In];
           match goal with
           | E : truthy _ = _ |- _ => rewrite E
           end;
           repeat (split; [reflexivity|]);
           split; [|reflexivity];
           first [left; reflexivity | right; left; reflexivity] ].
Qed.


(** X5.  [ReparsePointExists] opens nothing.  Every open made by the
    four other operations is on the path given, with [OPEN_EXISTING] and
    [FILE_FLAG_OPEN_REPARSE_POINT], for reading with reads shared or for
    writing with reads and writes shared: the library creates no file
    and never opens the target of the reparse point. *)
Theorem every_open_is_a_reparse_open
    (sFileName : LPCWSTR) (p : pointer) (uBufSize : UINT) (uGuid : GUID)
    (uReparseTag : ULONG) (st : State H) :
  open_calls (evs (ReparsePointExists H sFileName st)) = []
  /\ Forall (reparse_open sFileName)
       (open_calls (evs (GetReparseGUID H sFileName p st)))
  /\ Forall (reparse_open sFileName)
       (open_calls (evs (GetReparseTag H sFileName p st)))
  /\ Forall (reparse_open sFileName)
       (open_calls (evs (DeleteReparsePoint H sFileName st)))
  /\ Forall (reparse_open sFileName)
       (open_calls
          (evs (CreateCustomReparsePoint H sFileName p uBufSize uGuid
                  uReparseTag st))).
Proof.
  destruct st as [o c hp nb hs nh].
  split; [reflexivity|].
  split; [destruct p; run_all; prove_opens prove_open|].
  split; [destruct p; run_all; prove_opens prove_open|].
  split; [run_all; prove_opens prove_open|].
  destruct (create_rejects p uBufSize) eqn:Hrej; enter_creation Hrej.
  - apply Forall_nil.
  - run_all; try split_overrun; prove_opens prove_open.
Qed.

(** X6.  A query opens the path at most once, and only for reading. *)
Theorem queries_open_for_reading_only
    (sFileName : LPCWSTR) (p : pointer) (st : State H) :
  (Forall read_open (open_calls (evs (GetReparseGUID H sFileName p st)))
   /\ (List.length (open_calls (evs (GetReparseGUID H sFileName p st)))
       <= 1)%nat)
  /\ (Forall read_open (open_calls (evs (GetReparseTag H sFileName p st)))
      /\ (List.length (open_calls (evs (GetReparseTag H sFileName p st)))
          <= 1)%nat).
Proof.
  destruct st as [o c hp nb hs nh].
  destruct p; split; run_all; cbn [open_calls evs app List.length];
    (split; [repeat (apply Forall_cons; [split; reflexivity|]);
             apply Forall_nil | lia]).
Qed.

Lemma directory_flag (a : DWORD) :
  (if truthy (BOOL_of_DWORD (N.land a FILE_ATTRIBUTE_DIRECTORY))
   then N.lor FILE_FLAG_OPEN_REPARSE_POINT FILE_FLAG_BACKUP_SEMANTICS
   else FILE_FLAG_OPEN_REPARSE_POINT) = flags_for a.
Proof.
  unfold flags_for. rewrite truthy_attribute_bit by reflexivity.
  now destruct (N.eqb (N.land a FILE_ATTRIBUTE_DIRECTORY) 0).
Qed.

(** X7.  When the attributes of the path can be read, the opens of the
    queries and of the creation carry [FILE_FLAG_BACKUP_SEMANTICS]
    exactly when the attributes have the directory bit. *)
Theorem directories_open_with_backup_semantics
    (sFileName : LPCWSTR) (p : pointer) (uBufSize : UINT) (uGuid : GUID)
    (uReparseTag : ULONG) (st : State H) (a : DWORD) :
  attributes_of H (os H st) sFileName = Some a ->
  Forall (fun c => oc_flags c = flags_for a)
    (open_calls (evs (GetReparseGUID H sFileName p st)))
  /\ Forall (fun c => oc_flags c = flags_for a)
       (open_calls (evs (GetReparseTag H sFileName p st)))
  /\ Forall (fun c => oc_flags c = flags_for a)
       (open_calls
          (evs (CreateCustomReparsePoint H sFileName p uBufSize uGuid
                  uReparseTag st))).
Proof.
  destruct st as [o c hp nb hs nh]. cbn [os]. intros Ea.
  pose proof (directory_flag a) as Hf.
  split; [destruct p; run_all; rewrite ?Ea;
          prove_opens ltac:(cbn [oc_flags]; exact Hf)|].
  split; [destruct p; run_all; rewrite ?Ea;
          prove_opens ltac:(cbn [oc_flags]; exact Hf)|].
  destruct (create_rejects p uBufSize) eqn:Hrej; enter_creation Hrej.
  - apply Forall_nil.
  - run_all; try split_overrun; rewrite ?Ea;
      prove_opens ltac:(cbn [oc_flags]; exact Hf).
Qed.


(** X8.  [CreateCustomReparsePoint] issues no control request and
    returns [FALSE], or issues exactly one: a SET with no output, on the
    handle of its single open for writing, from the 16384-byte block it
    allocated; it returns [TRUE] exactly when the driver accepted it. *)
Theorem create_follows_protocol
    (sFileName : LPCWSTR) (p : pointer) (uBufSize : UINT) (uGuid : GUID)
    (uReparseTag : ULONG) (st : State H) :
  create_protocol H
    (CreateCustomReparsePoint H sFileName p uBufSize uGuid uReparseTag st).
Proof.
  destruct st as [o c hp nb hs nh].
  unfold create_protocol.
  destruct (create_rejects p uBufSize) eqn:Hrej; enter_creation Hrej.
  - left. split; reflexivity.
  - match goal with
    | |- context [bind ?h ?m ?f ?s] => run_on (bind h m f s)
    end.
    all: try split_overrun.
    all: first
         [ left; split; reflexivity
         | right; eexists; split; [reflexivity|];
           cbn [req_code req_in_ptr req_out_ptr req_out_size req_handle
                req_ret allocations opens open_calls map oc_access app In];
           match goal with
           | E : truthy _ = _ |- _ => rewrite E
           end;
           repeat (split; [reflexivity|]);
           split; [left; reflexivity|];
           repeat (split; [reflexivity|]); reflexivity ].
Qed.

(** X15.  [DeleteReparsePoint] issues a DELETE request only after two
    accepted GET requests, on three opens: two for reading, then one for
    writing; nothing but DELETE requests follows the two GETs. *)
Theorem delete_request_sequence (sFileName : LPCWSTR) (st : State H) :
  requests_of FSCTL_DELETE_REPARSE_POINT
    (evs (DeleteReparsePoint H sFileName st)) = []
  \/ (exists (g1 g2 : Request) (ds : list Request),
        requests (evs (DeleteReparsePoint H sFileName st)) = g1 :: g2 :: ds
        /\ req_code g1 = FSCTL_GET_REPARSE_POINT
        /\ req_code g2 = FSCTL_GET_REPARSE_POINT
        /\ truthy (req_ret g1) = true
        /\ truthy (req_ret g2) = true
        /\ ds = requests_of FSCTL_DELETE_REPARSE_POINT
                  (evs (DeleteReparsePoint H sFileName st))
        /\ map oc_access
             (open_calls (evs (DeleteReparsePoint H sFileName st)))
           = [GENERIC_READ; GENERIC_READ; GENERIC_WRITE]).
Proof.
  destruct st as [o c hp nb hs nh].
  match goal with
  | |- context [DeleteReparsePoint ?h ?n ?s] =>
      run_on (DeleteReparsePoint h n s)
  end.
  all: first
         [ left; reflexivity
         | right; eexists _, _, _; split; [reflexivity|];
           cbn [req_code req_ret];
           split; [reflexivity|]; split; [reflexivity|];
           split; [assumption|]; split; [assumption|];
           split; reflexivity ].
Qed.

(** X16.  On a path that exists without the reparse-point bit, the two
    queries and the deletion return [FALSE] with the whole machine, host
    included, as it was: nothing is opened, allocated or stored. *)
Theorem missing_attribute_leaves_machine_untouched
    (sFileName : LPCWSTR) (p : pointer) (st : State H) (a : DWORD) :
  attributes_of H (os H st) sFileName = Some a ->
  N.land a FILE_ATTRIBUTE_REPARSE_POINT = 0 ->
  GetReparseGUID H sFileName p st = mkRun FALSE st []
  /\ GetReparseTag H sFileName p st = mkRun FALSE st []
  /\ DeleteReparsePoint H sFileName st = mkRun FALSE st [].
Proof.
  destruct st as [o c hp nb hs nh]. cbn [os]. intros Ea Hbit.
  assert (Ht : truthy (BOOL_of_DWORD (N.land a FILE_ATTRIBUTE_REPARSE_POINT))
               = false).
  { apply reparse_bit_clear. now rewrite Hbit. }
  split; [|split].
  - destruct p; run_cbv; rewrite ?Ea, ?Ht; reflexivity.
  - destruct p; run_cbv; rewrite ?Ea, ?Ht; reflexivity.
  - run_cbv. rewrite Ea, Ht. reflexivity.
Qed.

(** X17.  With a null data pointer, a size of zero or a size above
    16384, [CreateCustomReparsePoint] returns [FALSE] with the whole
    machine, host included, as it was. *)
Theorem rejected_arguments_leave_machine_untouched
    (sFileName : LPCWSTR) (p : pointer) (uBufSize : UINT) (uGuid : GUID)
    (uReparseTag : ULONG) (st : State H) :
  is_null p = true \/ uBufSize = 0
  \/ MAXIMUM_REPARSE_DATA_BUFFER_SIZE < uBufSize ->
  CreateCustomReparsePoint H sFileName p uBufSize uGuid uReparseTag st
  = mkRun FALSE st [].
Proof.
  intros Hargs.
  assert (Hrej : create_rejects p uBufSize = true).
  { unfold create_rejects.
    destruct Hargs as [Hn | [Hz | Hbig]].
    - now rewrite Hn.
    - subst uBufSize. now rewrite orb_true_r.
    - apply N.ltb_lt in Hbig. rewrite Hbig. now rewrite orb_true_r. }
  enter_creation Hrej. reflexivity.
Qed.


End Protocols.

Lemma read_at_firstn (off len : N) (k : nat) (mem : list byte) :
  (N.to_nat off + N.to_nat len <= k)%nat ->
  read_at off len (firstn k mem) = read_at off len mem.
Proof.
  intros Hk. unfold read_at.
  rewrite skipn_firstn_comm, firstn_firstn. f_equal. lia.
Qed.

Lemma read_at_app_l (off len : N) (mem rest : list byte) :
  (N.to_nat off + N.to_nat len <= List.length mem)%nat ->
  read_at off len (mem ++ rest) = read_at off len mem.
Proof.
  intros Hk. unfold read_at.
  rewrite skipn_app, firstn_app, length_skipn.
  replace (N.to_nat len - (List.length mem - N.to_nat off))%nat
    with 0%nat by lia.
  rewrite firstn_O. apply app_nil_r.
Qed.

Ltac header_lengths :=
  unfold custom_header, set_ReparseGuid, set_Reserved,
    set_ReparseDataLength, set_ReparseTag;
  repeat (rewrite length_write_at;
          rewrite ?length_le_bytes, ?length_firstn, ?length_zeros);
  layout_lia.

(** The fields of the header that the creation writes. *)
Lemma custom_header_fields (tag : ULONG) (n : UINT) (g : GUID) :
  tag < 2 ^ 32 ->
  n <= MAXIMUM_REPARSE_DATA_BUFFER_SIZE ->
  List.length g = 16%nat ->
  get_ReparseTag (custom_header tag n g) = tag
  /\ get_ReparseDataLength (custom_header tag n g) = n
  /\ get_Reserved (custom_header tag n g) = 0
  /\ get_ReparseGuid (custom_header tag n g) = g.
Proof.
  intros Htag Hn Hg.
  split; [|split; [|split]].
  - unfold get_ReparseTag, custom_header, set_ReparseGuid, set_Reserved,
      set_ReparseDataLength.
    rewrite !read_write_before by header_lengths.
    unfold set_ReparseTag.
    rewrite read_write_same
      by (rewrite ?length_le_bytes, ?length_zeros; layout_lia).
    rewrite le_value_le_bytes. now apply N.mod_small.
  - now apply custom_header_length.
  - unfold get_Reserved, custom_header, set_ReparseGuid.
    rewrite read_write_before by header_lengths.
    unfold set_Reserved.
    rewrite read_write_same
      by (rewrite ?length_le_bytes; header_lengths).
    reflexivity.
  - unfold get_ReparseGuid, custom_header, set_ReparseGuid.
    rewrite (firstn_all2 g) by (rewrite Hg; vm_compute; lia).
    apply read_write_same; [rewrite Hg; reflexivity | header_lengths].
Qed.

(** The packet decodes to what went into it. *)
Lemma custom_packet_fields (tag : ULONG) (n : UINT) (g : GUID)
    (data : list byte) :
  tag < 2 ^ 32 ->
  n
  <= MAXIMUM_REPARSE_DATA_BUFFER_SIZE - REPARSE_GUID_DATA_BUFFER_HEADER_SIZE ->
  List.length g = 16%nat ->
  List.length data = N.to_nat n ->
  List.length (custom_packet tag n g data)
  = N.to_nat (n + REPARSE_GUID_DATA_BUFFER_HEADER_SIZE)
  /\ get_ReparseTag (custom_packet tag n g data) = tag
  /\ get_ReparseDataLength (custom_packet tag n g data) = n
  /\ get_Reserved (custom_packet tag n g data) = 0
  /\ get_ReparseGuid (custom_packet tag n g data) = g
  /\ get_DataBuffer n (custom_packet tag n g data) = data.
Proof.
  intros Htag Hn Hg Hdata.
  assert (Hn' : n <= MAXIMUM_REPARSE_DATA_BUFFER_SIZE) by layout_lia.
  destruct (custom_header_fields tag n g Htag Hn' Hg) as (F1 & F2 & F3 & F4).
  pose proof (length_custom_header tag n g) as Lh.
  assert (Lw : List.length
                 (write_at OFFSET_DataBuffer data (custom_header tag n g))
               = N.to_nat MAXIMUM_REPARSE_DATA_BUFFER_SIZE).
  { rewrite length_write_at; rewrite Lh; [reflexivity|].
    rewrite Hdata. layout_lia. }
  unfold custom_packet.
  split.
  { rewrite length_firstn, Lw. layout_lia. }
  unfold get_ReparseTag, get_ReparseDataLength, get_Reserved,
    get_ReparseGuid, get_DataBuffer in *.
  rewrite !read_at_firstn by layout_lia.
  rewrite !(read_write_before _ _ OFFSET_DataBuffer)
    by (rewrite ?Lh; layout_lia).
  repeat (split; [assumption|]).
  apply read_write_same; [exact Hdata | rewrite Lh; layout_lia].
Qed.

(** Read back through the zeroed scratch block of a query, the packet
    gives the same fields. *)
Lemma custom_packet_through_scratch (tag : ULONG) (n : UINT) (g : GUID)
    (data : list byte) :
  tag < 2 ^ 32 ->
  n
  <= MAXIMUM_REPARSE_DATA_BUFFER_SIZE - REPARSE_GUID_DATA_BUFFER_HEADER_SIZE ->
  List.length g = 16%nat ->
  List.length data = N.to_nat n ->
  let rd :=
    write_at 0
      (firstn (N.to_nat MAXIMUM_REPARSE_DATA_BUFFER_SIZE)
         (custom_packet tag n g data))
      (zeros MAXIMUM_REPARSE_DATA_BUFFER_SIZE) in
  get_ReparseTag rd = tag
  /\ get_ReparseGuid rd = g
  /\ get_ReparseDataLength rd = n
  /\ get_DataBuffer n rd = data.
Proof.
  intros Htag Hn Hg Hdata.
  destruct (custom_packet_fields tag n g data Htag Hn Hg Hdata)
    as (L & F1 & F2 & F3 & F4 & F5).
  cbv zeta.
  rewrite (firstn_all2 (custom_packet tag n g data))
    by (rewrite L; layout_lia).
  unfold write_at. rewrite firstn_O. cbn [app].
  unfold get_ReparseTag, get_ReparseDataLength, get_ReparseGuid,
    get_DataBuffer in *.
  rewrite !read_at_app_l by (rewrite L; layout_lia).
  auto.
Qed.

Section Marshalling.
Variable H : Host.

(** The bytes of the SET request. *)
Lemma set_request_packet (sFileName : LPCWSTR) (p : pointer)
    (uBufSize : UINT) (uGuid : GUID) (uReparseTag : ULONG) (st : State H)
    (q : Request) :
  create_rejects p uBufSize = false ->
  In q (requests (evs (CreateCustomReparsePoint H sFileName p uBufSize
                         uGuid uReparseTag st))) ->
  req_in q
  = custom_packet uReparseTag uBufSize uGuid
      (firstn (N.to_nat uBufSize) (bytes_at H p st)).
Proof.
  destruct st as [o c hp nb hs nh].
  intros Hrej.
  assert (Hn : uBufSize <= MAXIMUM_REPARSE_DATA_BUFFER_SIZE).
  { unfold create_rejects in Hrej.
    apply orb_false_iff in Hrej. destruct Hrej as [_ Hrej].
    now apply N.ltb_ge in Hrej. }
  enter_creation Hrej.
  run_all; try split_overrun; intros Hq; the_request Hq; subst q.
  all: cbn [req_in]; fold_custom_header; unfold custom_packet.
  all: unfold get_ReparseDataLength;
    rewrite read_write_before
      by (rewrite ?length_custom_header; layout_lia);
    rewrite (custom_header_length _ _ _ Hn).
  all: reflexivity.
Qed.


(** X9.  For data of at most 16360 bytes, the bytes of the SET request
    are as many as its byte count and decode to the arguments: the tag,
    the size of the data, zero in the reserved field, the GUID, and after
    the header the data itself. *)
Theorem create_marshals_its_arguments (sFileName : LPCWSTR) (p : pointer)
    (uBufSize : UINT) (uGuid : GUID) (uReparseTag : ULONG) (st : State H)
    (q : Request) :
  create_rejects p uBufSize = false ->
  uBufSize
  <= MAXIMUM_REPARSE_DATA_BUFFER_SIZE - REPARSE_GUID_DATA_BUFFER_HEADER_SIZE ->
  uReparseTag < 2 ^ 32 ->
  List.length uGuid = 16%nat ->
  (N.to_nat uBufSize <= List.length (bytes_at H p st))%nat ->
  In q (requests (evs (CreateCustomReparsePoint H sFileName p uBufSize
                         uGuid uReparseTag st))) ->
  List.length (req_in q) = N.to_nat (req_in_size q)
  /\ get_ReparseTag (req_in q) = uReparseTag
  /\ get_ReparseDataLength (req_in q) = uBufSize
  /\ get_Reserved (req_in q) = 0
  /\ get_ReparseGuid (req_in q) = uGuid
  /\ get_DataBuffer uBufSize (req_in q)
     = firstn (N.to_nat uBufSize) (bytes_at H p st).
Proof.
  intros Hrej Hn Htag Hg Hdata Hq.
  assert (Ld : List.length (firstn (N.to_nat uBufSize) (bytes_at H p st))
               = N.to_nat uBufSize).
  { rewrite length_firstn. lia. }
  destruct (set_request_size H sFileName p uBufSize uGuid uReparseTag st q
              Hrej Hq) as (_ & Hsize & _).
  rewrite (set_request_packet sFileName p uBufSize uGuid uReparseTag st q
             Hrej Hq), Hsize.
  exact (custom_packet_fields uReparseTag uBufSize uGuid _ Htag Hn Hg Ld).
Qed.

(** X10.  Round trip: laid over the zeroed scratch block of a query the
    way the answer to a GET is, the bytes of the SET request give back
    the tag, the GUID, the size and the data through the accessors the
    queries use. *)
Theorem created_packet_reads_back (sFileName : LPCWSTR) (p : pointer)
    (uBufSize : UINT) (uGuid : GUID) (uReparseTag : ULONG) (st : State H)
    (q : Request) :
  create_rejects p uBufSize = false ->
  uBufSize
  <= MAXIMUM_REPARSE_DATA_BUFFER_SIZE - REPARSE_GUID_DATA_BUFFER_HEADER_SIZE ->
  uReparseTag < 2 ^ 32 ->
  List.length uGuid = 16%nat ->
  (N.to_nat uBufSize <= List.length (bytes_at H p st))%nat ->
  In q (requests (evs (CreateCustomReparsePoint H sFileName p uBufSize
                         uGuid uReparseTag st))) ->
  let rd :=
    write_at 0
      (firstn (N.to_nat MAXIMUM_REPARSE_DATA_BUFFER_SIZE) (req_in q))
      (zeros MAXIMUM_REPARSE_DATA_BUFFER_SIZE) in
  get_ReparseTag rd = uReparseTag
  /\ get_ReparseGuid rd = uGuid
  /\ get_ReparseDataLength rd = uBufSize
  /\ get_DataBuffer uBufSize rd
     = firstn (N.to_nat uBufSize) (bytes_at H p st).
Proof.
  intros Hrej Hn Htag Hg Hdata Hq.
  assert (Ld : List.length (firstn (N.to_nat uBufSize) (bytes_at H p st))
               = N.to_nat uBufSize).
  { rewrite length_firstn. lia. }
  rewrite (set_request_packet sFileName p uBufSize uGuid uReparseTag st q
             Hrej Hq).
  exact (custom_packet_through_scratch uReparseTag uBufSize uGuid _ Htag Hn
           Hg Ld).
Qed.

(** X11.  For data of at most 16360 bytes no store of
    [CreateCustomReparsePoint] runs past the end of its block. *)
Theorem create_within_bound_stays_in_block (sFileName : LPCWSTR)
    (p : pointer) (uBufSize : UINT) (uGuid : GUID) (uReparseTag : ULONG)
    (st : State H) :
  uBufSize
  <= MAXIMUM_REPARSE_DATA_BUFFER_SIZE - REPARSE_GUID_DATA_BUFFER_HEADER_SIZE ->
  overruns (evs (CreateCustomReparsePoint H sFileName p uBufSize uGuid
                   uReparseTag st)) = [].
Proof.
  destruct st as [o c hp nb hs nh].
  intros Hn.
  destruct (create_rejects p uBufSize) eqn:Hrej; enter_creation Hrej.
  - reflexivity.
  - run_all; try split_overrun; try reflexivity.
    all: exfalso;
      match goal with
      | E : (_ <? _) = true |- _ =>
          apply N.ltb_lt in E; rewrite length_firstn in E; layout_lia
      end.
Qed.

End Marshalling.

(** *** Instances of the conditional properties *)

Lemma ReparsePointExists_on_existing_path_witness :
  attributes_of Mock.host (os Mock.host Mock.start) "C:\link" = Some 0x410
  /\ truthy (val (ReparsePointExists Mock.host "C:\link" Mock.start))
     = carries_reparse_attribute Mock.host (os Mock.host Mock.start)
         "C:\link".
Proof.
  assert (Ha : attributes_of Mock.host (os Mock.host Mock.start) "C:\link"
               = Some 0x410) by reflexivity.
  exact (conj Ha
           (proj2 (ReparsePointExists_on_existing_path Mock.host "C:\link"
                     Mock.start 0x410 Ha))).
Defined.

Lemma GetReparseTag_reads_tag_field_witness :
  is_null (Caller 1) = false
  /\ In (Mock.first_request
           (evs (GetReparseTag Mock.host "C:\link" (Caller 1) Mock.start)))
        (requests
           (evs (GetReparseTag Mock.host "C:\link" (Caller 1) Mock.start)))
  /\ truthy
       (req_ret
          (Mock.first_request
             (evs (GetReparseTag Mock.host "C:\link" (Caller 1)
                     Mock.start))))
     = true
  /\ val (GetReparseTag Mock.host "C:\link" (Caller 1) Mock.start) = TRUE
  /\ stores (evs (GetReparseTag Mock.host "C:\link" (Caller 1) Mock.start))
     = [(Caller 1,
         ObjDWORD
           (get_ReparseTag
              (write_at 0
                 (req_out
                    (Mock.first_request
                       (evs (GetReparseTag Mock.host "C:\link" (Caller 1)
                               Mock.start))))
                 (zeros MAXIMUM_REPARSE_DATA_BUFFER_SIZE))))].
Proof.
  assert (Hin :
            In (Mock.first_request
                  (evs (GetReparseTag Mock.host "C:\link" (Caller 1)
                          Mock.start)))
               (requests
                  (evs (GetReparseTag Mock.host "C:\link" (Caller 1)
                          Mock.start)))).
  { vm_compute. left. reflexivity. }
  assert (Hret :
            truthy
              (req_ret
                 (Mock.first_request
                    (evs (GetReparseTag Mock.host "C:\link" (Caller 1)
                            Mock.start))))
            = true).
  { vm_compute. reflexivity. }
  destruct (GetReparseTag_reads_tag_field Mock.host "C:\link" (Caller 1)
              Mock.start
              (Mock.first_request
                 (evs (GetReparseTag Mock.host "C:\link" (Caller 1)
                         Mock.start)))
              eq_refl Hin Hret) as (Hval & Hstores & _).
  exact (conj eq_refl (conj Hin (conj Hret (conj Hval Hstores)))).
Defined.

Lemma directories_open_with_backup_semantics_witness :
  attributes_of Mock.host (os Mock.host Mock.start) "C:\link" = Some 0x410
  /\ flags_for 0x410
     = N.lor FILE_FLAG_OPEN_REPARSE_POINT FILE_FLAG_BACKUP_SEMANTICS
  /\ Forall (fun c => oc_flags c = flags_for 0x410)
       (open_calls
          (evs (GetReparseGUID Mock.host "C:\link" (Caller 1) Mock.start))).
Proof.
  assert (Ha : attributes_of Mock.host (os Mock.host Mock.start) "C:\link"
               = Some 0x410) by reflexivity.
  exact (conj Ha
           (conj eq_refl
              (proj1 (directories_open_with_backup_semantics Mock.host
                        "C:\link" (Caller 1) 3 Mock.custom_guid 0x100
                        Mock.start 0x410 Ha)))).
Defined.

Lemma missing_attribute_leaves_machine_untouched_witness :
  attributes_of Mock.host (os Mock.host Mock.start) "C:\plain" = Some 0x20
  /\ N.land 0x20 FILE_ATTRIBUTE_REPARSE_POINT = 0
  /\ DeleteReparsePoint Mock.host "C:\plain" Mock.start
     = mkRun FALSE Mock.start [].
Proof.
  assert (Ha : attributes_of Mock.host (os Mock.host Mock.start) "C:\plain"
               = Some 0x20) by reflexivity.
  assert (Hb : N.land 0x20 FILE_ATTRIBUTE_REPARSE_POINT = 0) by reflexivity.
  exact (conj Ha
           (conj Hb
              (proj2 (proj2 (missing_attribute_leaves_machine_untouched
                               Mock.host "C:\plain" (Caller 1) Mock.start
                               0x20 Ha Hb))))).
Defined.

Lemma rejected_arguments_leave_machine_untouched_witness :
  (is_null NULL = true \/ 3 = 0 \/ MAXIMUM_REPARSE_DATA_BUFFER_SIZE < 3)
  /\ CreateCustomReparsePoint Mock.host "C:\plain" NULL 3 Mock.custom_guid
       0x100 Mock.start
     = mkRun FALSE Mock.start [].
Proof.
  assert (Hargs : is_null NULL = true \/ 3 = 0
                  \/ MAXIMUM_REPARSE_DATA_BUFFER_SIZE < 3).
  { left. reflexivity. }
  exact (conj Hargs
           (rejected_arguments_leave_machine_untouched Mock.host "C:\plain"
              NULL 3 Mock.custom_guid 0x100 Mock.start Hargs)).
Defined.

Lemma create_marshals_its_arguments_witness :
  In (Mock.first_request
        (evs (CreateCustomReparsePoint Mock.host "C:\plain" (Caller 1) 3
                Mock.custom_guid 0x100 (Mock.start_with_data 3))))
     (requests
        (evs (CreateCustomReparsePoint Mock.host "C:\plain" (Caller 1) 3
                Mock.custom_guid 0x100 (Mock.start_with_data 3))))
  /\ get_ReparseTag
       (req_in
          (Mock.first_request
             (evs (CreateCustomReparsePoint Mock.host "C:\plain" (Caller 1)
                     3 Mock.custom_guid 0x100 (Mock.start_with_data 3)))))
     = 0x100
  /\ get_ReparseGuid
       (req_in
          (Mock.first_request
             (evs (CreateCustomReparsePoint Mock.host "C:\plain" (Caller 1)
                     3 Mock.custom_guid 0x100 (Mock.start_with_data 3)))))
     = Mock.custom_guid.
Proof.
  assert (Hin :
            In (Mock.first_request
                  (evs (CreateCustomReparsePoint Mock.host "C:\plain"
                          (Caller 1) 3 Mock.custom_guid 0x100
                          (Mock.start_with_data 3))))
               (requests
                  (evs (CreateCustomReparsePoint Mock.host "C:\plain"
                          (Caller 1) 3 Mock.custom_guid 0x100
                          (Mock.start_with_data 3))))).
  { vm_compute. left. reflexivity. }
  assert (Hn : 3 <= MAXIMUM_REPARSE_DATA_BUFFER_SIZE
                    - REPARSE_GUID_DATA_BUFFER_HEADER_SIZE).
  { vm_compute. discriminate. }
  assert (Hd : (N.to_nat 3
                <= List.length
                     (bytes_at Mock.host (Caller 1)
                        (Mock.start_with_data 3)))%nat).
  { vm_compute. lia. }
  destruct (create_marshals_its_arguments Mock.host "C:\plain" (Caller 1) 3
              Mock.custom_guid 0x100 (Mock.start_with_data 3)
              (Mock.first_request
                 (evs (CreateCustomReparsePoint Mock.host "C:\plain"
                         (Caller 1) 3 Mock.custom_guid 0x100
                         (Mock.start_with_data 3))))
              eq_refl Hn eq_refl eq_refl Hd Hin)
    as (_ & Htag & _ & _ & Hguid & _).
  exact (conj Hin (conj Htag Hguid)).
Defined.

Lemma created_packet_reads_back_witness :
  In (Mock.first_request
        (evs (CreateCustomReparsePoint Mock.host "C:\plain" (Caller 1) 3
                Mock.custom_guid 0x100 (Mock.start_with_data 3))))
     (requests
        (evs (CreateCustomReparsePoint Mock.host "C:\plain" (Caller 1) 3
                Mock.custom_guid 0x100 (Mock.start_with_data 3))))
  /\ get_ReparseTag
       (write_at 0
          (firstn (N.to_nat MAXIMUM_REPARSE_DATA_BUFFER_SIZE)
             (req_in
                (Mock.first_request
                   (evs (CreateCustomReparsePoint Mock.host "C:\plain"
                           (Caller 1) 3 Mock.custom_guid 0x100
                           (Mock.start_with_data 3))))))
          (zeros MAXIMUM_REPARSE_DATA_BUFFER_SIZE))
     = 0x100.
Proof.
  assert (Hin :
            In (Mock.first_request
                  (evs (CreateCustomReparsePoint Mock.host "C:\plain"
                          (Caller 1) 3 Mock.custom_guid 0x100
                          (Mock.start_with_data 3))))
               (requests
                  (evs (CreateCustomReparsePoint Mock.host "C:\plain"
                          (Caller 1) 3 Mock.custom_guid 0x100
                          (Mock.start_with_data 3))))).
  { vm_compute. left. reflexivity. }
  assert (Hn : 3 <= MAXIMUM_REPARSE_DATA_BUFFER_SIZE
                    - REPARSE_GUID_DATA_BUFFER_HEADER_SIZE).
  { vm_compute. discriminate. }
  assert (Hd : (N.to_nat 3
                <= List.length
                     (bytes_at Mock.host (Caller 1)
                        (Mock.start_with_data 3)))%nat).
  { vm_compute. lia. }
  exact (conj Hin
           (proj1 (created_packet_reads_back Mock.host "C:\plain" (Caller 1)
                     3 Mock.custom_guid 0x100 (Mock.start_with_data 3)
                     (Mock.first_request
                        (evs (CreateCustomReparsePoint Mock.host "C:\plain"
                                (Caller 1) 3 Mock.custom_guid 0x100
                                (Mock.start_with_data 3))))
                     eq_refl Hn eq_refl eq_refl Hd Hin))).
Defined.

Lemma create_within_bound_stays_in_block_witness :
  3 <= MAXIMUM_REPARSE_DATA_BUFFER_SIZE - REPARSE_GUID_DATA_BUFFER_HEADER_SIZE
  /\ overruns
       (evs (CreateCustomReparsePoint Mock.host "C:\plain" (Caller 1) 3
               Mock.custom_guid 0x100 (Mock.start_with_data 3)))
     = [].
Proof.
  assert (Hn : 3 <= MAXIMUM_REPARSE_DATA_BUFFER_SIZE
                    - REPARSE_GUID_DATA_BUFFER_HEADER_SIZE).
  { vm_compute. discriminate. }
  exact (conj Hn
           (create_within_bound_stays_in_block Mock.host "C:\plain"
              (Caller 1) 3 Mock.custom_guid 0x100 (Mock.start_with_data 3)
              Hn)).
Defined.

Lemma delete_two_attempts_witness :
  exists (g : GUID) (tag : DWORD) (q1 q2 : Request),
    stores (evs (DeleteReparsePoint Mock.host "C:\link" Mock.start))
    = [(gu, ObjGUID g); (dwReparseTag, ObjDWORD tag)]
    /\ requests_of FSCTL_DELETE_REPARSE_POINT
         (evs (DeleteReparsePoint Mock.host "C:\link" Mock.start))
       = [q1; q2]
    /\ truthy (req_ret q1) = false
    /\ req_in q2 = set_ReparseGuid g (req_in q1)
    /\ val (DeleteReparsePoint Mock.host "C:\link" Mock.start) = req_ret q2.
Proof.
  pose proof (delete_two_attempts Mock.host "C:\link" Mock.start) as T.
  cbv zeta in T.
  destruct T as [(Hd & _) | (g & tag & q1 & Hs & _ & Hq & _)].
  - exfalso. vm_compute in Hd. discriminate Hd.
  - destruct Hq as [(Hd & _) | (q2 & Hd & Hr & Hin & Hv & _)].
    + exfalso. vm_compute in Hd. discriminate Hd.
    + exists g, tag, q1, q2.
      exact (conj Hs (conj Hd (conj Hr (conj Hin Hv)))).
Defined.

Lemma delete_releases_or_leaks_witness :
  write_open_failed
    (evs (DeleteReparsePoint Mock.host "C:\locked" Mock.start)) = true
  /\ val (DeleteReparsePoint Mock.host "C:\locked" Mock.start) = FALSE
  /\ exists tag : DWORD,
       heap Mock.host
         (post (DeleteReparsePoint Mock.host "C:\locked" Mock.start))
       = (N.succ (next_block Mock.host Mock.start),
          mkBlock REPARSE_GUID_DATA_BUFFER_HEADER_SIZE (tag_header tag))
           :: heap Mock.host Mock.start.
Proof.
  assert (Hw : write_open_failed
                 (evs (DeleteReparsePoint Mock.host "C:\locked" Mock.start))
               = true).
  { vm_compute. reflexivity. }
  pose proof (delete_releases_or_leaks Mock.host "C:\locked" Mock.start)
    as T.
  cbv zeta in T.
  destruct T as (_ & _ & T).
  destruct (T Hw) as (Hv & _ & tag & _ & Hh).
  exact (conj Hw (conj Hv (ex_intro _ tag Hh))).
Defined.
